(** * x_content: the scoring-and-comparison core

    A shallow embedding of [src/x_content/analyzer.py], [config.py],
    [scorer.py] and the validation path of [optimizer.py].

    Python [float]s are IEEE-754 binary64 numbers: they are modelled by
    Rocq's primitive floats, whose operations are the same correctly
    rounded ones, so that a concrete score is computed bit for bit.
    Python [str]s are sequences of Unicode code points, [dict]s keep their
    insertion order, and exceptions are values of an error type. *)

From Stdlib Require Import ZArith NArith List String Ascii Bool Lia.
From Stdlib Require Import Floats.
Import ListNotations.

Set Warnings "-inexact-float,-register-all".

Local Open Scope Z_scope.

(** ** Python numbers *)

Module PyNum.

(** [float(n)] for a Python [int]: the nearest binary64 number, ties to
    even.  (Python raises [OverflowError] from 2^1024 on; the integers
    converted in this program are counts of characters, lines and matches.) *)
Definition float_of_Z (z : Z) : float :=
  SF2Prim (binary_normalize prec emax z 0 false).

Definition float_of_nat (n : nat) : float := float_of_Z (Z.of_nat n).

(** [a / b] for two Python [int]s, [b] not zero: the binary64 number
    nearest to the quotient, ties to even. *)
Definition int_truediv (a b : Z) : float :=
  let as_float z :=
    match z with
    | Z0 => S754_zero false
    | Zpos m => S754_finite false m 0
    | Zneg m => S754_finite true m 0
    end in
  SF2Prim (SFdiv prec emax (as_float a) (as_float b)).

(** [min(a, b)] and [max(a, b)] return their first argument unless the
    second one is strictly smaller (strictly greater). *)
Definition py_min (a b : float) : float := if (b <? a)%float then b else a.
Definition py_max (a b : float) : float := if (a <? b)%float then b else a.

(** [x > y] on floats is [y < x]. *)
Definition gtb (x y : float) : bool := (y <? x)%float.

(** Nearest integer to [num / den], ties to the even one ([0 <= num], [0 < den]). *)
Definition div_half_even (num den : Z) : Z :=
  let q := num / den in
  let r := num mod den in
  match 2 * r ?= den with
  | Lt => q
  | Gt => q + 1
  | Eq => if Z.even q then q else q + 1
  end.

(** [round(x, ndigits)] of a float, [0 <= ndigits]: CPython rounds the
    exact binary value of [x] to [ndigits] decimals, ties to even, and
    returns the binary64 number nearest to that decimal; zeros, infinities
    and NaN are returned unchanged. *)
Definition py_round (x : float) (ndigits : Z) : float :=
  match Prim2SF x with
  | S754_finite s m e =>
      let p := 10 ^ ndigits in
      let k := if 0 <=? e then Zpos m * 2 ^ e * p
               else div_half_even (Zpos m * p) (2 ^ (- e)) in
      match k with
      | Zpos k' =>
          SF2Prim (SFdiv prec emax (S754_finite s k' 0)
                                   (S754_finite false (Z.to_pos p) 0))
      | _ => SF2Prim (S754_zero s)
      end
  | _ => x
  end.

End PyNum.
Import PyNum.

(** ** Python dictionaries

    Keys are strings; a dictionary remembers the order in which its keys
    were first inserted, and assigning to a present key keeps its place. *)

Module Dict.

Definition t (V : Type) := list (string * V).

Definition empty {V} : t V := [].

Fixpoint lookup {V} (k : string) (d : t V) : option V :=
  match d with
  | [] => None
  | (k', v) :: d' => if String.eqb k k' then Some v else lookup k d'
  end.

(** [k in d] *)
Definition mem {V} (k : string) (d : t V) : bool :=
  match lookup k d with Some _ => true | None => false end.

(** [d.get(k, default)] *)
Definition get {V} (k : string) (default : V) (d : t V) : V :=
  match lookup k d with Some v => v | None => default end.

(** [d[k] = v] *)
Fixpoint set {V} (k : string) (v : V) (d : t V) : t V :=
  match d with
  | [] => [(k, v)]
  | (k', v') :: d' =>
      if String.eqb k k' then (k', v) :: d' else (k', v') :: set k v d'
  end.

(** [d.setdefault(k, v)], for its effect on [d] *)
Definition setdefault {V} (k : string) (v : V) (d : t V) : t V :=
  if mem k d then d else set k v d.

Definition keys {V} (d : t V) : list string := map fst d.

(** [d.items()] *)
Definition items {V} (d : t V) : list (string * V) := d.

End Dict.

Local Open Scope string_scope.

(** ** Python strings: sequences of Unicode code points *)

Abbreviation char := N (only parsing).
Abbreviation str := (list N) (only parsing).

(** A literal whose characters are all ASCII. *)
Definition lit (s : string) : str := map N_of_ascii (list_ascii_of_string s).

(** *** Character classes

    The tables of CPython 3.11, which follow the Unicode Character Database
    14.0.0, each complete over the code points 0 to 1114111: whitespace,
    alphanumeric characters, decimal digits, cased and case-ignorable
    characters, and the lower-case map.  A table lists its ranges in
    increasing order. *)

Module Unicode.

Local Open Scope N_scope.

Definition in_range (lo hi c : char) : bool := (lo <=? c) && (c <=? hi).

(** Membership in a table of ranges. *)
Fixpoint in_ranges (table : list (N * N)) (c : char) : bool :=
  match table with
  | [] => false
  | (lo, hi) :: rest =>
      if c <? lo then false
      else if c <=? hi then true
      else in_ranges rest c
  end.

(** [str.isspace], the regular expression class [\s] *)
Definition is_space (c : char) : bool :=
  in_range 9 13 c || in_range 28 32 c || (c =? 133) || (c =? 160)
  || (c =? 5760) || in_range 8192 8202 c || (c =? 8232) || (c =? 8233)
  || (c =? 8239) || (c =? 8287) || (c =? 12288).

(** The decimal digits (general category Nd). *)
Definition decimal_ranges : list (N * N) :=
  [ (48, 57); (1632, 1641); (1776, 1785); (1984, 1993); (2406, 2415); (2534, 2543); (2662, 2671);
    (2790, 2799); (2918, 2927); (3046, 3055); (3174, 3183); (3302, 3311); (3430, 3439);
    (3558, 3567); (3664, 3673); (3792, 3801); (3872, 3881); (4160, 4169); (4240, 4249);
    (6112, 6121); (6160, 6169); (6470, 6479); (6608, 6617); (6784, 6793); (6800, 6809);
    (6992, 7001); (7088, 7097); (7232, 7241); (7248, 7257); (42528, 42537); (43216, 43225);
    (43264, 43273); (43472, 43481); (43504, 43513); (43600, 43609); (44016, 44025);
    (65296, 65305); (66720, 66729); (68912, 68921); (69734, 69743); (69872, 69881);
    (69942, 69951); (70096, 70105); (70384, 70393); (70736, 70745); (70864, 70873);
    (71248, 71257); (71360, 71369); (71472, 71481); (71904, 71913); (72016, 72025);
    (72784, 72793); (73040, 73049); (73120, 73129); (92768, 92777); (92864, 92873);
    (93008, 93017); (120782, 120831); (123200, 123209); (123632, 123641); (125264, 125273);
    (130032, 130041) ]%N.

(** [\d] *)
Definition is_digit (c : char) : bool := in_ranges decimal_ranges c.

(** The characters on which [str.isalnum] holds. *)
Definition alnum_ranges : list (N * N) :=
  [ (48, 57); (65, 90); (97, 122); (170, 170); (178, 179); (181, 181); (185, 186); (188, 190);
    (192, 214); (216, 246); (248, 705); (710, 721); (736, 740); (748, 748); (750, 750);
    (880, 884); (886, 887); (890, 893); (895, 895); (902, 902); (904, 906); (908, 908);
    (910, 929); (931, 1013); (1015, 1153); (1162, 1327); (1329, 1366); (1369, 1369);
    (1376, 1416); (1488, 1514); (1519, 1522); (1568, 1610); (1632, 1641); (1646, 1647);
    (1649, 1747); (1749, 1749); (1765, 1766); (1774, 1788); (1791, 1791); (1808, 1808);
    (1810, 1839); (1869, 1957); (1969, 1969); (1984, 2026); (2036, 2037); (2042, 2042);
    (2048, 2069); (2074, 2074); (2084, 2084); (2088, 2088); (2112, 2136); (2144, 2154);
    (2160, 2183); (2185, 2190); (2208, 2249); (2308, 2361); (2365, 2365); (2384, 2384);
    (2392, 2401); (2406, 2415); (2417, 2432); (2437, 2444); (2447, 2448); (2451, 2472);
    (2474, 2480); (2482, 2482); (2486, 2489); (2493, 2493); (2510, 2510); (2524, 2525);
    (2527, 2529); (2534, 2545); (2548, 2553); (2556, 2556); (2565, 2570); (2575, 2576);
    (2579, 2600); (2602, 2608); (2610, 2611); (2613, 2614); (2616, 2617); (2649, 2652);
    (2654, 2654); (2662, 2671); (2674, 2676); (2693, 2701); (2703, 2705); (2707, 2728);
    (2730, 2736); (2738, 2739); (2741, 2745); (2749, 2749); (2768, 2768); (2784, 2785);
    (2790, 2799); (2809, 2809); (2821, 2828); (2831, 2832); (2835, 2856); (2858, 2864);
    (2866, 2867); (2869, 2873); (2877, 2877); (2908, 2909); (2911, 2913); (2918, 2927);
    (2929, 2935); (2947, 2947); (2949, 2954); (2958, 2960); (2962, 2965); (2969, 2970);
    (2972, 2972); (2974, 2975); (2979, 2980); (2984, 2986); (2990, 3001); (3024, 3024);
    (3046, 3058); (3077, 3084); (3086, 3088); (3090, 3112); (3114, 3129); (3133, 3133);
    (3160, 3162); (3165, 3165); (3168, 3169); (3174, 3183); (3192, 3198); (3200, 3200);
    (3205, 3212); (3214, 3216); (3218, 3240); (3242, 3251); (3253, 3257); (3261, 3261);
    (3293, 3294); (3296, 3297); (3302, 3311); (3313, 3314); (3332, 3340); (3342, 3344);
    (3346, 3386); (3389, 3389); (3406, 3406); (3412, 3414); (3416, 3425); (3430, 3448);
    (3450, 3455); (3461, 3478); (3482, 3505); (3507, 3515); (3517, 3517); (3520, 3526);
    (3558, 3567); (3585, 3632); (3634, 3635); (3648, 3654); (3664, 3673); (3713, 3714);
    (3716, 3716); (3718, 3722); (3724, 3747); (3749, 3749); (3751, 3760); (3762, 3763);
    (3773, 3773); (3776, 3780); (3782, 3782); (3792, 3801); (3804, 3807); (3840, 3840);
    (3872, 3891); (3904, 3911); (3913, 3948); (3976, 3980); (4096, 4138); (4159, 4169);
    (4176, 4181); (4186, 4189); (4193, 4193); (4197, 4198); (4206, 4208); (4213, 4225);
    (4238, 4238); (4240, 4249); (4256, 4293); (4295, 4295); (4301, 4301); (4304, 4346);
    (4348, 4680); (4682, 4685); (4688, 4694); (4696, 4696); (4698, 4701); (4704, 4744);
    (4746, 4749); (4752, 4784); (4786, 4789); (4792, 4798); (4800, 4800); (4802, 4805);
    (4808, 4822); (4824, 4880); (4882, 4885); (4888, 4954); (4969, 4988); (4992, 5007);
    (5024, 5109); (5112, 5117); (5121, 5740); (5743, 5759); (5761, 5786); (5792, 5866);
    (5870, 5880); (5888, 5905); (5919, 5937); (5952, 5969); (5984, 5996); (5998, 6000);
    (6016, 6067); (6103, 6103); (6108, 6108); (6112, 6121); (6128, 6137); (6160, 6169);
    (6176, 6264); (6272, 6276); (6279, 6312); (6314, 6314); (6320, 6389); (6400, 6430);
    (6470, 6509); (6512, 6516); (6528, 6571); (6576, 6601); (6608, 6618); (6656, 6678);
    (6688, 6740); (6784, 6793); (6800, 6809); (6823, 6823); (6917, 6963); (6981, 6988);
    (6992, 7001); (7043, 7072); (7086, 7141); (7168, 7203); (7232, 7241); (7245, 7293);
    (7296, 7304); (7312, 7354); (7357, 7359); (7401, 7404); (7406, 7411); (7413, 7414);
    (7418, 7418); (7424, 7615); (7680, 7957); (7960, 7965); (7968, 8005); (8008, 8013);
    (8016, 8023); (8025, 8025); (8027, 8027); (8029, 8029); (8031, 8061); (8064, 8116);
    (8118, 8124); (8126, 8126); (8130, 8132); (8134, 8140); (8144, 8147); (8150, 8155);
    (8160, 8172); (8178, 8180); (8182, 8188); (8304, 8305); (8308, 8313); (8319, 8329);
    (8336, 8348); (8450, 8450); (8455, 8455); (8458, 8467); (8469, 8469); (8473, 8477);
    (8484, 8484); (8486, 8486); (8488, 8488); (8490, 8493); (8495, 8505); (8508, 8511);
    (8517, 8521); (8526, 8526); (8528, 8585); (9312, 9371); (9450, 9471); (10102, 10131);
    (11264, 11492); (11499, 11502); (11506, 11507); (11517, 11517); (11520, 11557);
    (11559, 11559); (11565, 11565); (11568, 11623); (11631, 11631); (11648, 11670);
    (11680, 11686); (11688, 11694); (11696, 11702); (11704, 11710); (11712, 11718);
    (11720, 11726); (11728, 11734); (11736, 11742); (11823, 11823); (12293, 12295);
    (12321, 12329); (12337, 12341); (12344, 12348); (12353, 12438); (12445, 12447);
    (12449, 12538); (12540, 12543); (12549, 12591); (12593, 12686); (12690, 12693);
    (12704, 12735); (12784, 12799); (12832, 12841); (12872, 12879); (12881, 12895);
    (12928, 12937); (12977, 12991); (13312, 19903); (19968, 42124); (42192, 42237);
    (42240, 42508); (42512, 42539); (42560, 42606); (42623, 42653); (42656, 42735);
    (42775, 42783); (42786, 42888); (42891, 42954); (42960, 42961); (42963, 42963);
    (42965, 42969); (42994, 43009); (43011, 43013); (43015, 43018); (43020, 43042);
    (43056, 43061); (43072, 43123); (43138, 43187); (43216, 43225); (43250, 43255);
    (43259, 43259); (43261, 43262); (43264, 43301); (43312, 43334); (43360, 43388);
    (43396, 43442); (43471, 43481); (43488, 43492); (43494, 43518); (43520, 43560);
    (43584, 43586); (43588, 43595); (43600, 43609); (43616, 43638); (43642, 43642);
    (43646, 43695); (43697, 43697); (43701, 43702); (43705, 43709); (43712, 43712);
    (43714, 43714); (43739, 43741); (43744, 43754); (43762, 43764); (43777, 43782);
    (43785, 43790); (43793, 43798); (43808, 43814); (43816, 43822); (43824, 43866);
    (43868, 43881); (43888, 44002); (44016, 44025); (44032, 55203); (55216, 55238);
    (55243, 55291); (63744, 64109); (64112, 64217); (64256, 64262); (64275, 64279);
    (64285, 64285); (64287, 64296); (64298, 64310); (64312, 64316); (64318, 64318);
    (64320, 64321); (64323, 64324); (64326, 64433); (64467, 64829); (64848, 64911);
    (64914, 64967); (65008, 65019); (65136, 65140); (65142, 65276); (65296, 65305);
    (65313, 65338); (65345, 65370); (65382, 65470); (65474, 65479); (65482, 65487);
    (65490, 65495); (65498, 65500); (65536, 65547); (65549, 65574); (65576, 65594);
    (65596, 65597); (65599, 65613); (65616, 65629); (65664, 65786); (65799, 65843);
    (65856, 65912); (65930, 65931); (66176, 66204); (66208, 66256); (66273, 66299);
    (66304, 66339); (66349, 66378); (66384, 66421); (66432, 66461); (66464, 66499);
    (66504, 66511); (66513, 66517); (66560, 66717); (66720, 66729); (66736, 66771);
    (66776, 66811); (66816, 66855); (66864, 66915); (66928, 66938); (66940, 66954);
    (66956, 66962); (66964, 66965); (66967, 66977); (66979, 66993); (66995, 67001);
    (67003, 67004); (67072, 67382); (67392, 67413); (67424, 67431); (67456, 67461);
    (67463, 67504); (67506, 67514); (67584, 67589); (67592, 67592); (67594, 67637);
    (67639, 67640); (67644, 67644); (67647, 67669); (67672, 67702); (67705, 67742);
    (67751, 67759); (67808, 67826); (67828, 67829); (67835, 67867); (67872, 67897);
    (67968, 68023); (68028, 68047); (68050, 68096); (68112, 68115); (68117, 68119);
    (68121, 68149); (68160, 68168); (68192, 68222); (68224, 68255); (68288, 68295);
    (68297, 68324); (68331, 68335); (68352, 68405); (68416, 68437); (68440, 68466);
    (68472, 68497); (68521, 68527); (68608, 68680); (68736, 68786); (68800, 68850);
    (68858, 68899); (68912, 68921); (69216, 69246); (69248, 69289); (69296, 69297);
    (69376, 69415); (69424, 69445); (69457, 69460); (69488, 69505); (69552, 69579);
    (69600, 69622); (69635, 69687); (69714, 69743); (69745, 69746); (69749, 69749);
    (69763, 69807); (69840, 69864); (69872, 69881); (69891, 69926); (69942, 69951);
    (69956, 69956); (69959, 69959); (69968, 70002); (70006, 70006); (70019, 70066);
    (70081, 70084); (70096, 70106); (70108, 70108); (70113, 70132); (70144, 70161);
    (70163, 70187); (70272, 70278); (70280, 70280); (70282, 70285); (70287, 70301);
    (70303, 70312); (70320, 70366); (70384, 70393); (70405, 70412); (70415, 70416);
    (70419, 70440); (70442, 70448); (70450, 70451); (70453, 70457); (70461, 70461);
    (70480, 70480); (70493, 70497); (70656, 70708); (70727, 70730); (70736, 70745);
    (70751, 70753); (70784, 70831); (70852, 70853); (70855, 70855); (70864, 70873);
    (71040, 71086); (71128, 71131); (71168, 71215); (71236, 71236); (71248, 71257);
    (71296, 71338); (71352, 71352); (71360, 71369); (71424, 71450); (71472, 71483);
    (71488, 71494); (71680, 71723); (71840, 71922); (71935, 71942); (71945, 71945);
    (71948, 71955); (71957, 71958); (71960, 71983); (71999, 71999); (72001, 72001);
    (72016, 72025); (72096, 72103); (72106, 72144); (72161, 72161); (72163, 72163);
    (72192, 72192); (72203, 72242); (72250, 72250); (72272, 72272); (72284, 72329);
    (72349, 72349); (72368, 72440); (72704, 72712); (72714, 72750); (72768, 72768);
    (72784, 72812); (72818, 72847); (72960, 72966); (72968, 72969); (72971, 73008);
    (73030, 73030); (73040, 73049); (73056, 73061); (73063, 73064); (73066, 73097);
    (73112, 73112); (73120, 73129); (73440, 73458); (73648, 73648); (73664, 73684);
    (73728, 74649); (74752, 74862); (74880, 75075); (77712, 77808); (77824, 78894);
    (82944, 83526); (92160, 92728); (92736, 92766); (92768, 92777); (92784, 92862);
    (92864, 92873); (92880, 92909); (92928, 92975); (92992, 92995); (93008, 93017);
    (93019, 93025); (93027, 93047); (93053, 93071); (93760, 93846); (93952, 94026);
    (94032, 94032); (94099, 94111); (94176, 94177); (94179, 94179); (94208, 100343);
    (100352, 101589); (101632, 101640); (110576, 110579); (110581, 110587); (110589, 110590);
    (110592, 110882); (110928, 110930); (110948, 110951); (110960, 111355); (113664, 113770);
    (113776, 113788); (113792, 113800); (113808, 113817); (119520, 119539); (119648, 119672);
    (119808, 119892); (119894, 119964); (119966, 119967); (119970, 119970); (119973, 119974);
    (119977, 119980); (119982, 119993); (119995, 119995); (119997, 120003); (120005, 120069);
    (120071, 120074); (120077, 120084); (120086, 120092); (120094, 120121); (120123, 120126);
    (120128, 120132); (120134, 120134); (120138, 120144); (120146, 120485); (120488, 120512);
    (120514, 120538); (120540, 120570); (120572, 120596); (120598, 120628); (120630, 120654);
    (120656, 120686); (120688, 120712); (120714, 120744); (120746, 120770); (120772, 120779);
    (120782, 120831); (122624, 122654); (123136, 123180); (123191, 123197); (123200, 123209);
    (123214, 123214); (123536, 123565); (123584, 123627); (123632, 123641); (124896, 124902);
    (124904, 124907); (124909, 124910); (124912, 124926); (124928, 125124); (125127, 125135);
    (125184, 125251); (125259, 125259); (125264, 125273); (126065, 126123); (126125, 126127);
    (126129, 126132); (126209, 126253); (126255, 126269); (126464, 126467); (126469, 126495);
    (126497, 126498); (126500, 126500); (126503, 126503); (126505, 126514); (126516, 126519);
    (126521, 126521); (126523, 126523); (126530, 126530); (126535, 126535); (126537, 126537);
    (126539, 126539); (126541, 126543); (126545, 126546); (126548, 126548); (126551, 126551);
    (126553, 126553); (126555, 126555); (126557, 126557); (126559, 126559); (126561, 126562);
    (126564, 126564); (126567, 126570); (126572, 126578); (126580, 126583); (126585, 126588);
    (126590, 126590); (126592, 126601); (126603, 126619); (126625, 126627); (126629, 126633);
    (126635, 126651); (127232, 127244); (130032, 130041); (131072, 173791); (173824, 177976);
    (177984, 178205); (178208, 183969); (183984, 191456); (194560, 195101); (196608, 201546) ]%N.

(** [str.isalnum] *)
Definition is_alnum (c : char) : bool := in_ranges alnum_ranges c.

(** [\w]: alphanumeric or the underscore *)
Definition is_word (c : char) : bool := is_alnum c || (c =? 95).

(** The cased characters: lower case, upper case and title case. *)
Definition cased_ranges : list (N * N) :=
  [ (65, 90); (97, 122); (170, 170); (181, 181); (186, 186); (192, 214); (216, 246); (248, 442);
    (444, 447); (452, 659); (661, 696); (704, 705); (736, 740); (837, 837); (880, 883);
    (886, 887); (890, 893); (895, 895); (902, 902); (904, 906); (908, 908); (910, 929);
    (931, 1013); (1015, 1153); (1162, 1327); (1329, 1366); (1376, 1416); (4256, 4293);
    (4295, 4295); (4301, 4301); (4304, 4346); (4349, 4351); (5024, 5109); (5112, 5117);
    (7296, 7304); (7312, 7354); (7357, 7359); (7424, 7615); (7680, 7957); (7960, 7965);
    (7968, 8005); (8008, 8013); (8016, 8023); (8025, 8025); (8027, 8027); (8029, 8029);
    (8031, 8061); (8064, 8116); (8118, 8124); (8126, 8126); (8130, 8132); (8134, 8140);
    (8144, 8147); (8150, 8155); (8160, 8172); (8178, 8180); (8182, 8188); (8305, 8305);
    (8319, 8319); (8336, 8348); (8450, 8450); (8455, 8455); (8458, 8467); (8469, 8469);
    (8473, 8477); (8484, 8484); (8486, 8486); (8488, 8488); (8490, 8493); (8495, 8500);
    (8505, 8505); (8508, 8511); (8517, 8521); (8526, 8526); (8544, 8575); (8579, 8580);
    (9398, 9449); (11264, 11492); (11499, 11502); (11506, 11507); (11520, 11557); (11559, 11559);
    (11565, 11565); (42560, 42605); (42624, 42653); (42786, 42887); (42891, 42894);
    (42896, 42954); (42960, 42961); (42963, 42963); (42965, 42969); (42997, 42998);
    (43000, 43002); (43824, 43866); (43868, 43880); (43888, 43967); (64256, 64262);
    (64275, 64279); (65313, 65338); (65345, 65370); (66560, 66639); (66736, 66771);
    (66776, 66811); (66928, 66938); (66940, 66954); (66956, 66962); (66964, 66965);
    (66967, 66977); (66979, 66993); (66995, 67001); (67003, 67004); (67456, 67456);
    (67459, 67461); (67463, 67504); (67506, 67514); (68736, 68786); (68800, 68850);
    (71840, 71903); (93760, 93823); (119808, 119892); (119894, 119964); (119966, 119967);
    (119970, 119970); (119973, 119974); (119977, 119980); (119982, 119993); (119995, 119995);
    (119997, 120003); (120005, 120069); (120071, 120074); (120077, 120084); (120086, 120092);
    (120094, 120121); (120123, 120126); (120128, 120132); (120134, 120134); (120138, 120144);
    (120146, 120485); (120488, 120512); (120514, 120538); (120540, 120570); (120572, 120596);
    (120598, 120628); (120630, 120654); (120656, 120686); (120688, 120712); (120714, 120744);
    (120746, 120770); (120772, 120779); (122624, 122633); (122635, 122654); (125184, 125251);
    (127280, 127305); (127312, 127337); (127344, 127369) ]%N.

Definition is_cased (c : char) : bool := in_ranges cased_ranges c.

(** The case-ignorable characters. *)
Definition case_ignorable_ranges : list (N * N) :=
  [ (39, 39); (46, 46); (58, 58); (94, 94); (96, 96); (168, 168); (173, 173); (175, 175);
    (180, 180); (183, 184); (688, 879); (884, 885); (890, 890); (900, 901); (903, 903);
    (1155, 1161); (1369, 1369); (1375, 1375); (1425, 1469); (1471, 1471); (1473, 1474);
    (1476, 1477); (1479, 1479); (1524, 1524); (1536, 1541); (1552, 1562); (1564, 1564);
    (1600, 1600); (1611, 1631); (1648, 1648); (1750, 1757); (1759, 1768); (1770, 1773);
    (1807, 1807); (1809, 1809); (1840, 1866); (1958, 1968); (2027, 2037); (2042, 2042);
    (2045, 2045); (2070, 2093); (2137, 2139); (2184, 2184); (2192, 2193); (2200, 2207);
    (2249, 2306); (2362, 2362); (2364, 2364); (2369, 2376); (2381, 2381); (2385, 2391);
    (2402, 2403); (2417, 2417); (2433, 2433); (2492, 2492); (2497, 2500); (2509, 2509);
    (2530, 2531); (2558, 2558); (2561, 2562); (2620, 2620); (2625, 2626); (2631, 2632);
    (2635, 2637); (2641, 2641); (2672, 2673); (2677, 2677); (2689, 2690); (2748, 2748);
    (2753, 2757); (2759, 2760); (2765, 2765); (2786, 2787); (2810, 2815); (2817, 2817);
    (2876, 2876); (2879, 2879); (2881, 2884); (2893, 2893); (2901, 2902); (2914, 2915);
    (2946, 2946); (3008, 3008); (3021, 3021); (3072, 3072); (3076, 3076); (3132, 3132);
    (3134, 3136); (3142, 3144); (3146, 3149); (3157, 3158); (3170, 3171); (3201, 3201);
    (3260, 3260); (3263, 3263); (3270, 3270); (3276, 3277); (3298, 3299); (3328, 3329);
    (3387, 3388); (3393, 3396); (3405, 3405); (3426, 3427); (3457, 3457); (3530, 3530);
    (3538, 3540); (3542, 3542); (3633, 3633); (3636, 3642); (3654, 3662); (3761, 3761);
    (3764, 3772); (3782, 3782); (3784, 3789); (3864, 3865); (3893, 3893); (3895, 3895);
    (3897, 3897); (3953, 3966); (3968, 3972); (3974, 3975); (3981, 3991); (3993, 4028);
    (4038, 4038); (4141, 4144); (4146, 4151); (4153, 4154); (4157, 4158); (4184, 4185);
    (4190, 4192); (4209, 4212); (4226, 4226); (4229, 4230); (4237, 4237); (4253, 4253);
    (4348, 4348); (4957, 4959); (5906, 5908); (5938, 5939); (5970, 5971); (6002, 6003);
    (6068, 6069); (6071, 6077); (6086, 6086); (6089, 6099); (6103, 6103); (6109, 6109);
    (6155, 6159); (6211, 6211); (6277, 6278); (6313, 6313); (6432, 6434); (6439, 6440);
    (6450, 6450); (6457, 6459); (6679, 6680); (6683, 6683); (6742, 6742); (6744, 6750);
    (6752, 6752); (6754, 6754); (6757, 6764); (6771, 6780); (6783, 6783); (6823, 6823);
    (6832, 6862); (6912, 6915); (6964, 6964); (6966, 6970); (6972, 6972); (6978, 6978);
    (7019, 7027); (7040, 7041); (7074, 7077); (7080, 7081); (7083, 7085); (7142, 7142);
    (7144, 7145); (7149, 7149); (7151, 7153); (7212, 7219); (7222, 7223); (7288, 7293);
    (7376, 7378); (7380, 7392); (7394, 7400); (7405, 7405); (7412, 7412); (7416, 7417);
    (7468, 7530); (7544, 7544); (7579, 7679); (8125, 8125); (8127, 8129); (8141, 8143);
    (8157, 8159); (8173, 8175); (8189, 8190); (8203, 8207); (8216, 8217); (8228, 8228);
    (8231, 8231); (8234, 8238); (8288, 8292); (8294, 8303); (8305, 8305); (8319, 8319);
    (8336, 8348); (8400, 8432); (11388, 11389); (11503, 11505); (11631, 11631); (11647, 11647);
    (11744, 11775); (11823, 11823); (12293, 12293); (12330, 12333); (12337, 12341);
    (12347, 12347); (12441, 12446); (12540, 12542); (40981, 40981); (42232, 42237);
    (42508, 42508); (42607, 42610); (42612, 42621); (42623, 42623); (42652, 42655);
    (42736, 42737); (42752, 42785); (42864, 42864); (42888, 42890); (42994, 42996);
    (43000, 43001); (43010, 43010); (43014, 43014); (43019, 43019); (43045, 43046);
    (43052, 43052); (43204, 43205); (43232, 43249); (43263, 43263); (43302, 43309);
    (43335, 43345); (43392, 43394); (43443, 43443); (43446, 43449); (43452, 43453);
    (43471, 43471); (43493, 43494); (43561, 43566); (43569, 43570); (43573, 43574);
    (43587, 43587); (43596, 43596); (43632, 43632); (43644, 43644); (43696, 43696);
    (43698, 43700); (43703, 43704); (43710, 43711); (43713, 43713); (43741, 43741);
    (43756, 43757); (43763, 43764); (43766, 43766); (43867, 43871); (43881, 43883);
    (44005, 44005); (44008, 44008); (44013, 44013); (64286, 64286); (64434, 64450);
    (65024, 65039); (65043, 65043); (65056, 65071); (65106, 65106); (65109, 65109);
    (65279, 65279); (65287, 65287); (65294, 65294); (65306, 65306); (65342, 65342);
    (65344, 65344); (65392, 65392); (65438, 65439); (65507, 65507); (65529, 65531);
    (66045, 66045); (66272, 66272); (66422, 66426); (67456, 67461); (67463, 67504);
    (67506, 67514); (68097, 68099); (68101, 68102); (68108, 68111); (68152, 68154);
    (68159, 68159); (68325, 68326); (68900, 68903); (69291, 69292); (69446, 69456);
    (69506, 69509); (69633, 69633); (69688, 69702); (69744, 69744); (69747, 69748);
    (69759, 69761); (69811, 69814); (69817, 69818); (69821, 69821); (69826, 69826);
    (69837, 69837); (69888, 69890); (69927, 69931); (69933, 69940); (70003, 70003);
    (70016, 70017); (70070, 70078); (70089, 70092); (70095, 70095); (70191, 70193);
    (70196, 70196); (70198, 70199); (70206, 70206); (70367, 70367); (70371, 70378);
    (70400, 70401); (70459, 70460); (70464, 70464); (70502, 70508); (70512, 70516);
    (70712, 70719); (70722, 70724); (70726, 70726); (70750, 70750); (70835, 70840);
    (70842, 70842); (70847, 70848); (70850, 70851); (71090, 71093); (71100, 71101);
    (71103, 71104); (71132, 71133); (71219, 71226); (71229, 71229); (71231, 71232);
    (71339, 71339); (71341, 71341); (71344, 71349); (71351, 71351); (71453, 71455);
    (71458, 71461); (71463, 71467); (71727, 71735); (71737, 71738); (71995, 71996);
    (71998, 71998); (72003, 72003); (72148, 72151); (72154, 72155); (72160, 72160);
    (72193, 72202); (72243, 72248); (72251, 72254); (72263, 72263); (72273, 72278);
    (72281, 72283); (72330, 72342); (72344, 72345); (72752, 72758); (72760, 72765);
    (72767, 72767); (72850, 72871); (72874, 72880); (72882, 72883); (72885, 72886);
    (73009, 73014); (73018, 73018); (73020, 73021); (73023, 73029); (73031, 73031);
    (73104, 73105); (73109, 73109); (73111, 73111); (73459, 73460); (78896, 78904);
    (92912, 92916); (92976, 92982); (92992, 92995); (94031, 94031); (94095, 94111);
    (94176, 94177); (94179, 94180); (110576, 110579); (110581, 110587); (110589, 110590);
    (113821, 113822); (113824, 113827); (118528, 118573); (118576, 118598); (119143, 119145);
    (119155, 119170); (119173, 119179); (119210, 119213); (119362, 119364); (121344, 121398);
    (121403, 121452); (121461, 121461); (121476, 121476); (121499, 121503); (121505, 121519);
    (122880, 122886); (122888, 122904); (122907, 122913); (122915, 122916); (122918, 122922);
    (123184, 123197); (123566, 123566); (123628, 123631); (125136, 125142); (125252, 125259);
    (127995, 127999); (917505, 917505); (917536, 917631); (917760, 917999) ]%N.

Definition is_case_ignorable (c : char) : bool := in_ranges case_ignorable_ranges c.

(** The lower-case map of single code points, by runs [(lo, hi, step, target)]:
    a code point [c] of [lo..hi] at a multiple of [step] from [lo] becomes
    [target + (c - lo)]; every other code point is its own lower case. *)
Definition lower_runs : list (N * N * N * N) :=
  [ (65, 90, 1, 97); (192, 214, 1, 224); (216, 222, 1, 248); (256, 302, 2, 257);
    (306, 310, 2, 307); (313, 327, 2, 314); (330, 374, 2, 331); (376, 376, 1, 255);
    (377, 381, 2, 378); (385, 385, 1, 595); (386, 388, 2, 387); (390, 390, 1, 596);
    (391, 391, 1, 392); (393, 394, 1, 598); (395, 395, 1, 396); (398, 398, 1, 477);
    (399, 399, 1, 601); (400, 400, 1, 603); (401, 401, 1, 402); (403, 403, 1, 608);
    (404, 404, 1, 611); (406, 406, 1, 617); (407, 407, 1, 616); (408, 408, 1, 409);
    (412, 412, 1, 623); (413, 413, 1, 626); (415, 415, 1, 629); (416, 420, 2, 417);
    (422, 422, 1, 640); (423, 423, 1, 424); (425, 425, 1, 643); (428, 428, 1, 429);
    (430, 430, 1, 648); (431, 431, 1, 432); (433, 434, 1, 650); (435, 437, 2, 436);
    (439, 439, 1, 658); (440, 440, 1, 441); (444, 444, 1, 445); (452, 452, 1, 454);
    (453, 453, 1, 454); (455, 455, 1, 457); (456, 456, 1, 457); (458, 458, 1, 460);
    (459, 475, 2, 460); (478, 494, 2, 479); (497, 497, 1, 499); (498, 500, 2, 499);
    (502, 502, 1, 405); (503, 503, 1, 447); (504, 542, 2, 505); (544, 544, 1, 414);
    (546, 562, 2, 547); (570, 570, 1, 11365); (571, 571, 1, 572); (573, 573, 1, 410);
    (574, 574, 1, 11366); (577, 577, 1, 578); (579, 579, 1, 384); (580, 580, 1, 649);
    (581, 581, 1, 652); (582, 590, 2, 583); (880, 882, 2, 881); (886, 886, 1, 887);
    (895, 895, 1, 1011); (902, 902, 1, 940); (904, 906, 1, 941); (908, 908, 1, 972);
    (910, 911, 1, 973); (913, 929, 1, 945); (931, 939, 1, 963); (975, 975, 1, 983);
    (984, 1006, 2, 985); (1012, 1012, 1, 952); (1015, 1015, 1, 1016); (1017, 1017, 1, 1010);
    (1018, 1018, 1, 1019); (1021, 1023, 1, 891); (1024, 1039, 1, 1104); (1040, 1071, 1, 1072);
    (1120, 1152, 2, 1121); (1162, 1214, 2, 1163); (1216, 1216, 1, 1231); (1217, 1229, 2, 1218);
    (1232, 1326, 2, 1233); (1329, 1366, 1, 1377); (4256, 4293, 1, 11520); (4295, 4295, 1, 11559);
    (4301, 4301, 1, 11565); (5024, 5103, 1, 43888); (5104, 5109, 1, 5112); (7312, 7354, 1, 4304);
    (7357, 7359, 1, 4349); (7680, 7828, 2, 7681); (7838, 7838, 1, 223); (7840, 7934, 2, 7841);
    (7944, 7951, 1, 7936); (7960, 7965, 1, 7952); (7976, 7983, 1, 7968); (7992, 7999, 1, 7984);
    (8008, 8013, 1, 8000); (8025, 8031, 2, 8017); (8040, 8047, 1, 8032); (8072, 8079, 1, 8064);
    (8088, 8095, 1, 8080); (8104, 8111, 1, 8096); (8120, 8121, 1, 8112); (8122, 8123, 1, 8048);
    (8124, 8124, 1, 8115); (8136, 8139, 1, 8050); (8140, 8140, 1, 8131); (8152, 8153, 1, 8144);
    (8154, 8155, 1, 8054); (8168, 8169, 1, 8160); (8170, 8171, 1, 8058); (8172, 8172, 1, 8165);
    (8184, 8185, 1, 8056); (8186, 8187, 1, 8060); (8188, 8188, 1, 8179); (8486, 8486, 1, 969);
    (8490, 8490, 1, 107); (8491, 8491, 1, 229); (8498, 8498, 1, 8526); (8544, 8559, 1, 8560);
    (8579, 8579, 1, 8580); (9398, 9423, 1, 9424); (11264, 11311, 1, 11312);
    (11360, 11360, 1, 11361); (11362, 11362, 1, 619); (11363, 11363, 1, 7549);
    (11364, 11364, 1, 637); (11367, 11371, 2, 11368); (11373, 11373, 1, 593);
    (11374, 11374, 1, 625); (11375, 11375, 1, 592); (11376, 11376, 1, 594);
    (11378, 11378, 1, 11379); (11381, 11381, 1, 11382); (11390, 11391, 1, 575);
    (11392, 11490, 2, 11393); (11499, 11501, 2, 11500); (11506, 11506, 1, 11507);
    (42560, 42604, 2, 42561); (42624, 42650, 2, 42625); (42786, 42798, 2, 42787);
    (42802, 42862, 2, 42803); (42873, 42875, 2, 42874); (42877, 42877, 1, 7545);
    (42878, 42886, 2, 42879); (42891, 42891, 1, 42892); (42893, 42893, 1, 613);
    (42896, 42898, 2, 42897); (42902, 42920, 2, 42903); (42922, 42922, 1, 614);
    (42923, 42923, 1, 604); (42924, 42924, 1, 609); (42925, 42925, 1, 620);
    (42926, 42926, 1, 618); (42928, 42928, 1, 670); (42929, 42929, 1, 647);
    (42930, 42930, 1, 669); (42931, 42931, 1, 43859); (42932, 42946, 2, 42933);
    (42948, 42948, 1, 42900); (42949, 42949, 1, 642); (42950, 42950, 1, 7566);
    (42951, 42953, 2, 42952); (42960, 42960, 1, 42961); (42966, 42968, 2, 42967);
    (42997, 42997, 1, 42998); (65313, 65338, 1, 65345); (66560, 66599, 1, 66600);
    (66736, 66771, 1, 66776); (66928, 66938, 1, 66967); (66940, 66954, 1, 66979);
    (66956, 66962, 1, 66995); (66964, 66965, 1, 67003); (68736, 68786, 1, 68800);
    (71840, 71871, 1, 71872); (93760, 93791, 1, 93792); (125184, 125217, 1, 125218) ]%N.

Fixpoint lower_in (runs : list (N * N * N * N)) (c : char) : char :=
  match runs with
  | [] => c
  | (lo, hi, step, target) :: rest =>
      if c <? lo then c
      else if c <=? hi
           then (if (c - lo) mod step =? 0 then target + (c - lo) else c)
           else lower_in rest c
  end.

(** [str.lower] on one character; U+0130 becomes two code points. *)
Definition lower_char (c : char) : str :=
  if c =? 304 then [105; 775] else [lower_in lower_runs c].

(** The first character that is not case-ignorable. *)
Fixpoint skip_case_ignorable (s : str) : option char :=
  match s with
  | [] => None
  | c :: rest => if is_case_ignorable c then skip_case_ignorable rest else Some c
  end.

(** The lower case of U+03A3 between the characters [before] it (the
    nearest first) and [after] it: the final form U+03C2 when the nearest
    character before that is not case-ignorable is cased and the nearest
    such character after is not, U+03C3 otherwise. *)
Definition handle_capital_sigma (before after : str) : char :=
  let final_sigma :=
    match skip_case_ignorable before with
    | Some c => is_cased c
    | None => false
    end in
  let final_sigma :=
    final_sigma && match skip_case_ignorable after with
                   | Some c => negb (is_cased c)
                   | None => true
                   end in
  if final_sigma then 962 else 963.

End Unicode.
Import Unicode.

(** *** String methods and the regular expressions of [analyzer.py] *)

Module Text.

(** Truth value of a string: it is not empty. *)
Definition nonempty (s : str) : bool :=
  match s with [] => false | _ :: _ => true end.

(** [s.lower()]: character by character, with the characters passed so far
    ([before], the nearest first) for the one that depends on its
    surroundings. *)
Fixpoint lower_from (before s : str) : str :=
  match s with
  | [] => []
  | c :: rest =>
      ((if N.eqb c 931 then [handle_capital_sigma before rest] else lower_char c)
       ++ lower_from (c :: before) rest)%list
  end.

Definition lower (s : str) : str := lower_from [] s.

Fixpoint lstrip (s : str) : str :=
  match s with
  | c :: s' => if is_space c then lstrip s' else s
  | [] => []
  end.

Definition rstrip (s : str) : str := rev (lstrip (rev s)).

(** [s.strip()] *)
Definition strip (s : str) : str := rstrip (lstrip s).

(** [s.split(sep)] for a one-character separator: never empty. *)
Fixpoint split_on (sep : char) (s : str) : list str :=
  match s with
  | [] => [[]]
  | c :: s' =>
      if N.eqb c sep then [] :: split_on sep s'
      else match split_on sep s' with
           | h :: t => (c :: h) :: t
           | [] => [[c]]
           end
  end.

(** [s.split()]: the maximal runs of characters that are not whitespace. *)
Fixpoint split_ws (s : str) : list str :=
  match s with
  | [] => []
  | c :: s' =>
      if is_space c then split_ws s'
      else match s' with
           | [] => [[c]]
           | c' :: _ =>
               if is_space c' then [c] :: split_ws s'
               else match split_ws s' with
                    | h :: t => (c :: h) :: t
                    | [] => [[c]]
                    end
           end
  end.

(** What remains of [s] after the prefix [p], if [s] starts with [p]. *)
Fixpoint strip_prefix (p s : str) : option str :=
  match p, s with
  | [], _ => Some s
  | _ :: _, [] => None
  | a :: p', b :: s' => if N.eqb a b then strip_prefix p' s' else None
  end.

(** [s.startswith(p)] *)
Definition startswith (p s : str) : bool :=
  match strip_prefix p s with Some _ => true | None => false end.

(** [s.endswith(p)] *)
Definition endswith (p s : str) : bool := startswith (rev p) (rev s).

(** [p in s] *)
Fixpoint contains (p s : str) : bool :=
  startswith p s || match s with [] => false | _ :: s' => contains p s' end.

(** [s.count(c)] for one character *)
Definition count_char (c : char) (s : str) : nat :=
  List.length (filter (N.eqb c) s).

(** [re.findall(r"#\w+", s)], scanning with the tag being read ([cur] holds
    its word characters, last one first). *)
Fixpoint findall_hashtags_from (cur : option str) (s : str) : list str :=
  let emit w := match w with [] => [] | _ :: _ => [35%N :: rev w] end in
  match s with
  | [] => match cur with Some w => emit w | None => [] end
  | c :: s' =>
      match cur with
      | Some w =>
          if is_word c then findall_hashtags_from (Some (c :: w)) s'
          else (emit w ++ findall_hashtags_from (if N.eqb c 35 then Some [] else None) s')%list
      | None => findall_hashtags_from (if N.eqb c 35 then Some [] else None) s'
      end
  end.

Definition findall_hashtags (s : str) : list str := findall_hashtags_from None s.

(** [\S+] matches at the start of [s]. *)
Definition starts_nonspace (s : str) : bool :=
  match s with c :: _ => negb (is_space c) | [] => false end.

(** [https?://\S+] matches at the start of [s]. *)
Definition match_url_at (s : str) : bool :=
  match strip_prefix (lit "http") s with
  | Some r =>
      match strip_prefix (lit "s://") r with
      | Some r' => starts_nonspace r'
      | None => false
      end
      || match strip_prefix (lit "://") r with
         | Some r' => starts_nonspace r'
         | None => false
         end
  | None => false
  end.

(** [re.search(r"https?://\S+", s)] finds a match. *)
Fixpoint search_url (s : str) : bool :=
  match_url_at s || match s with [] => false | _ :: s' => search_url s' end.

(** [\b] between the characters [a] and [b] ([None] at either end of the
    string): exactly one of them is a word character. *)
Definition boundary (a b : option char) : bool :=
  let w o := match o with Some c => is_word c | None => false end in
  xorb (w a) (w b).

(** [\b w \b] matches at the start of [s], the character before being [prev]. *)
Definition match_word_at (prev : option char) (w s : str) : bool :=
  boundary prev (hd_error s)
  && match strip_prefix w s with
     | Some r => boundary (last (map Some w) prev) (hd_error r)
     | None => false
     end.

Fixpoint search_word_from (prev : option char) (w s : str) : bool :=
  match_word_at prev w s
  || match s with
     | [] => false
     | c :: s' => search_word_from (Some c) w s'
     end.

(** [re.search(rf"\b{w}\b", s)] finds a match, [w] a literal. *)
Definition search_word (w s : str) : bool := search_word_from None w s.

(** [re.search(r"\d+%?", s)] finds a match: [s] has a digit. *)
Definition search_number (s : str) : bool := existsb is_digit s.

End Text.
Import Text.

(** ** The feature dictionary returned by [analyze] *)

Record analysis := {
  char_count : nat;
  char_utilization : float;
  word_count : nat;
  line_count : nat;
  first_line : str;
  has_hook : bool;
  has_question : bool;
  question_count : nat;
  hashtag_count : nat;
  hashtags : list str;
  has_url : bool;
  has_media : bool;
  lang : string;
  has_cta : bool;
  cta_count : nat;
  power_word_count : nat;
  power_words_found : list str;
  has_numbers : bool;
  has_list_format : bool;
  emoji_count : nat
}.

(** ** algorithm.py: the signal catalog *)

Module Algorithm.

(** Modelled from the spec: [ACTIONS] of [x_content/algorithm.py], the 19
    catalog ids in the order of the spec's catalog table.  The ids are
    spelled as [score_tweet] and the system prompt of [prompts.py] spell
    them. *)
Definition ACTIONS : list string :=
  [ "favorite_score"; "reply_score"; "repost_score"; "photo_expand_score";
    "click_score"; "profile_click_score"; "vqv_score"; "share_score";
    "share_via_dm_score"; "share_via_copy_link_score"; "dwell_score";
    "quote_score"; "quoted_click_score"; "follow_author_score";
    "dwell_time"; "not_interested_score"; "block_author_score";
    "mute_author_score"; "report_score" ].

(** Modelled from the spec: [NEGATIVE_ACTIONS] of [x_content/algorithm.py],
    the four ids of negative polarity. *)
Definition NEGATIVE_ACTIONS : list string :=
  [ "not_interested_score"; "block_author_score"; "mute_author_score";
    "report_score" ].

(** Modelled from the spec: [ACTION_WEIGHTS] of [x_content/algorithm.py],
    the weights of the spec's catalog table. *)
Definition ACTION_WEIGHTS : Dict.t float :=
  [ ("favorite_score", 1.0); ("reply_score", 27.0); ("repost_score", 10.0);
    ("photo_expand_score", 0.3); ("click_score", 0.3);
    ("profile_click_score", 2.0); ("vqv_score", 0.2); ("share_score", 1.0);
    ("share_via_dm_score", 100.0); ("share_via_copy_link_score", 5.0);
    ("dwell_score", 2.0); ("quote_score", 40.0);
    ("quoted_click_score", 0.5); ("follow_author_score", 10.0);
    ("dwell_time", 0.8); ("not_interested_score", -74.0);
    ("block_author_score", -371.0); ("mute_author_score", -74.0);
    ("report_score", -9209.0) ]%float.

(** [action in NEGATIVE_ACTIONS] *)
Definition is_negative_action (action : string) : bool :=
  existsb (String.eqb action) NEGATIVE_ACTIONS.

(** The weighted sum over the catalog, accumulated in catalog order. *)
Definition weighted_sum (signals : Dict.t float) : float :=
  fold_left
    (fun acc action =>
       acc + Dict.get action 0 signals * Dict.get action 0 ACTION_WEIGHTS)%float
    ACTIONS 0%float.

(** Modelled from the spec: [compute_weighted_score] of
    [x_content/algorithm.py] (section 4.3): the weighted sum over the 19
    catalog entries, doubled when it is negative; the media flag is not
    used, and a missing id counts as 0.0. *)
Definition compute_weighted_score (signals : Dict.t float) (has_media : bool) : float :=
  let combined := weighted_sum signals in
  if (combined <? 0)%float then (combined * 2)%float else combined.

End Algorithm.
Import Algorithm.

(** ** scorer.py *)

Module Scorer.

Local Open Scope float_scope.

Definition _clamp (v lo hi : float) : float := py_max lo (py_min hi v).

(** [_clamp(v)] with the default bounds *)
Definition clamp01 (v : float) : float := _clamp v 0.0 1.0.

Definition score_tweet (a : analysis) : Dict.t float :=
  let s : Dict.t float := Dict.empty in
  (* favorite_score *)
  let base_fav := 0.20 in
  let base_fav := if (0 <? power_word_count a)%nat
                  then base_fav + py_min (float_of_nat (power_word_count a) * 0.08) 0.25
                  else base_fav in
  let base_fav := if has_question a then base_fav + 0.05 else base_fav in
  let base_fav := if (0 <? emoji_count a)%nat then base_fav + 0.05 else base_fav in
  let base_fav := if gtb (char_utilization a) 50 then base_fav + 0.10 else base_fav in
  let base_fav := if has_media a then base_fav + 0.10 else base_fav in
  let s := Dict.set "favorite_score" (clamp01 base_fav) s in
  (* reply_score *)
  let base_reply := 0.10 in
  let base_reply := if has_question a
                    then base_reply + 0.15 * float_of_nat (Nat.min (question_count a) 3)
                    else base_reply in
  let base_reply := if has_cta a then base_reply + 0.10 else base_reply in
  let base_reply := if (0 <? power_word_count a)%nat then base_reply + 0.08 else base_reply in
  let base_reply := if (3 <=? line_count a)%nat then base_reply + 0.05 else base_reply in
  let s := Dict.set "reply_score" (clamp01 base_reply) s in
  (* repost_score *)
  let base_rt := 0.15 in
  let base_rt := if has_numbers a then base_rt + 0.12 else base_rt in
  let base_rt := if (2 <=? power_word_count a)%nat then base_rt + 0.10 else base_rt in
  let base_rt := if ((100 <? char_count a)%nat && (char_count a <? 200)%nat)%bool
                 then base_rt + 0.08 else base_rt in
  let base_rt := if has_list_format a then base_rt + 0.05 else base_rt in
  let s := Dict.set "repost_score" (clamp01 base_rt) s in
  (* photo_expand_score *)
  let base_photo := 0.05 in
  let base_photo := if has_media a then base_photo + 0.50 else base_photo in
  let s := Dict.set "photo_expand_score" (clamp01 base_photo) s in
  (* click_score *)
  let base_click := 0.05 in
  let base_click := if has_url a then base_click + 0.35 else base_click in
  let base_click := if ((0 <? power_word_count a)%nat && has_url a)%bool
                    then base_click + 0.10 else base_click in
  let s := Dict.set "click_score" (clamp01 base_click) s in
  (* profile_click_score *)
  let base_profile := 0.10 in
  let base_profile := if (2 <=? power_word_count a)%nat then base_profile + 0.10 else base_profile in
  let base_profile := if has_numbers a then base_profile + 0.08 else base_profile in
  let base_profile := if gtb (char_utilization a) 60 then base_profile + 0.05 else base_profile in
  let s := Dict.set "profile_click_score" (clamp01 base_profile) s in
  (* vqv_score *)
  let base_vqv := 0.02 in
  let base_vqv := if has_media a then base_vqv + 0.15 else base_vqv in
  let s := Dict.set "vqv_score" (clamp01 base_vqv) s in
  (* share_score *)
  let base_share := 0.10 in
  let base_share := if has_list_format a then base_share + 0.15 else base_share in
  let base_share := if has_numbers a then base_share + 0.10 else base_share in
  let base_share := if (0 <? power_word_count a)%nat then base_share + 0.05 else base_share in
  let base_share := if gtb (char_utilization a) 50 then base_share + 0.05 else base_share in
  let s := Dict.set "share_score" (clamp01 base_share) s in
  (* share_via_dm_score *)
  let base_dm := 0.05 in
  let base_dm := if (2 <=? power_word_count a)%nat then base_dm + 0.12 else base_dm in
  let base_dm := if has_numbers a then base_dm + 0.08 else base_dm in
  let base_dm := if (has_question a && (0 <? power_word_count a)%nat)%bool
                 then base_dm + 0.10 else base_dm in
  let base_dm := if gtb (char_utilization a) 60 then base_dm + 0.05 else base_dm in
  let s := Dict.set "share_via_dm_score" (clamp01 base_dm) s in
  (* share_via_copy_link_score *)
  let base_copy := 0.05 in
  let base_copy := if has_list_format a then base_copy + 0.12 else base_copy in
  let base_copy := if has_numbers a then base_copy + 0.08 else base_copy in
  let base_copy := if gtb (char_utilization a) 70 then base_copy + 0.05 else base_copy in
  let s := Dict.set "share_via_copy_link_score" (clamp01 base_copy) s in
  (* dwell_score *)
  let base_dwell := 0.15 in
  let base_dwell := if has_hook a then base_dwell + 0.15 else base_dwell in
  let base_dwell := if (3 <=? line_count a)%nat then base_dwell + 0.10 else base_dwell in
  let base_dwell := if gtb (char_utilization a) 50 then base_dwell + 0.10 else base_dwell in
  let s := Dict.set "dwell_score" (clamp01 base_dwell) s in
  (* quote_score *)
  let base_quote := 0.08 in
  let base_quote := if (2 <=? power_word_count a)%nat then base_quote + 0.12 else base_quote in
  let base_quote := if has_numbers a then base_quote + 0.08 else base_quote in
  let base_quote := if has_question a then base_quote + 0.05 else base_quote in
  let s := Dict.set "quote_score" (clamp01 base_quote) s in
  (* quoted_click_score *)
  let s := Dict.set "quoted_click_score" 0.05 s in
  (* follow_author_score *)
  let base_follow := 0.08 in
  let base_follow := if has_numbers a then base_follow + 0.08 else base_follow in
  let base_follow := if (2 <=? power_word_count a)%nat then base_follow + 0.08 else base_follow in
  let base_follow := if gtb (char_utilization a) 60 then base_follow + 0.05 else base_follow in
  let s := Dict.set "follow_author_score" (clamp01 base_follow) s in
  (* not_interested_score *)
  let base_ni := 0.10 in
  let base_ni := if (3 <? hashtag_count a)%nat then base_ni + 0.15 else base_ni in
  let base_ni := if char_utilization a <? 15 then base_ni + 0.10 else base_ni in
  let base_ni := if (2 <? cta_count a)%nat then base_ni + 0.08 else base_ni in
  let s := Dict.set "not_interested_score" (clamp01 base_ni) s in
  (* block_author_score *)
  let base_block := 0.03 in
  let base_block := if (5 <? hashtag_count a)%nat then base_block + 0.05 else base_block in
  let s := Dict.set "block_author_score" (clamp01 base_block) s in
  (* mute_author_score *)
  let base_mute := 0.05 in
  let base_mute := if (3 <? hashtag_count a)%nat then base_mute + 0.05 else base_mute in
  let s := Dict.set "mute_author_score" (clamp01 base_mute) s in
  (* report_score *)
  let s := Dict.set "report_score" 0.02 s in
  (* dwell_time *)
  let base_dwell_t := 0.15 in
  let base_dwell_t := if (4 <=? line_count a)%nat then base_dwell_t + 0.15 else base_dwell_t in
  let base_dwell_t := if gtb (char_utilization a) 60 then base_dwell_t + 0.15 else base_dwell_t in
  let base_dwell_t := if has_hook a then base_dwell_t + 0.10 else base_dwell_t in
  let base_dwell_t := if has_list_format a then base_dwell_t + 0.10 else base_dwell_t in
  let s := Dict.set "dwell_time" (clamp01 base_dwell_t) s in
  s.

(** One entry of the dictionary returned by [compute_delta]. *)
Record delta := {
  original : float;
  optimized : float;
  delta_pct : float;
  direction : string;
  is_new : bool
}.

(** The percentage change before it is rounded: the local [delta_pct]. *)
Definition raw_delta_pct (orig opt : float) : float :=
  let isNew := ((orig =? 0.0) && gtb opt 0.0)%bool in
  if isNew then 100.0
  else if orig =? 0.0 then 0.0
  else ((opt - orig) / orig) * 100.

(** The body of the loop of [compute_delta] for one [action]. *)
Definition delta_of (action : string) (orig opt : float) : delta :=
  let isNew := ((orig =? 0.0) && gtb opt 0.0)%bool in
  let delta_pct := raw_delta_pct orig opt in
  let is_negative := is_negative_action action in
  let direction :=
    if is_negative
    then (if delta_pct <? 0 then "improved" else "worse")
    else (if gtb delta_pct 0 then "improved" else "worse") in
  {| original := orig;
     optimized := opt;
     delta_pct := py_round delta_pct 1;
     direction := direction;
     is_new := isNew |}.

Definition compute_delta (original optimized : Dict.t float) : Dict.t delta :=
  fold_left
    (fun result action =>
       let orig := Dict.get action 0.0 original in
       let opt := Dict.get action 0.0 optimized in
       Dict.set action (delta_of action orig opt) result)
    ACTIONS Dict.empty.

Record score_report := {
  signals : Dict.t float;
  weighted_score : float
}.

Definition full_score_report (a : analysis) (has_media : bool) : score_report :=
  let signals := score_tweet a in
  let weighted_score := compute_weighted_score signals has_media in
  {| signals := signals;
     weighted_score := py_round weighted_score 2 |}.

Record comparison := {
  original_report : score_report;
  optimized_report : score_report;
  delta_report : Dict.t delta;
  weighted_score_original : float;
  weighted_score_optimized : float;
  weighted_score_change : float
}.

Definition comparison_report (original_analysis : analysis)
    (optimized_scores : Dict.t float) (has_media : bool) : comparison :=
  let orig_report := full_score_report original_analysis has_media in
  let opt_weighted := compute_weighted_score optimized_scores has_media in
  let delta := compute_delta (signals orig_report) optimized_scores in
  {| original_report := orig_report;
     optimized_report := {| signals := optimized_scores;
                            weighted_score := py_round opt_weighted 2 |};
     delta_report := delta;
     weighted_score_original := weighted_score orig_report;
     weighted_score_optimized := py_round opt_weighted 2;
     weighted_score_change := py_round (opt_weighted - weighted_score orig_report) 2 |}.

End Scorer.
Import Scorer.

(** ** Exceptions and effects *)

Inductive exn :=
  | TypeError
  | AttributeError
  | ZeroDivisionError
  | OverflowError
  | OSError.

Inductive result (A : Type) :=
  | Ok (a : A)
  | Raise (e : exn).
Arguments Ok {A} a.
Arguments Raise {A} e.

(** The input and output a call performs: [config.yaml] is opened and read,
    a line is printed on the standard error stream. *)
Inductive event :=
  | ReadConfigFile
  | PrintStderr.

(** ** config.py *)

Module Config.

(** A value loaded from YAML (mapping keys are strings). *)
Inductive value :=
  | VNone
  | VBool (b : bool)
  | VInt (z : Z)
  | VFloat (f : float)
  | VStr (s : string)
  | VList (l : list value)
  | VDict (d : list (string * value)).

(** Truth value of a Python object, for [yaml.safe_load(f) or {}]. *)
Definition truthy (v : value) : bool :=
  match v with
  | VNone => false
  | VBool b => b
  | VInt z => negb (z =? 0)%Z
  | VFloat f => negb (f =? 0)%float
  | VStr s => negb (String.eqb s "")
  | VList l => match l with [] => false | _ => true end
  | VDict d => match d with [] => false | _ => true end
  end.

(** What [open(_CONFIG_PATH)] followed by [yaml.safe_load] does. *)
Inductive read_outcome :=
  | FileNotFound
  | PermissionDenied
  | YamlError
  | OtherFailure            (* an exception that [load_config] does not catch *)
  | Parsed (v : value).

(** The process: the module global [_config] and the file system. *)
Record process := {
  _config : option value;
  config_yaml : read_outcome
}.

Definition _DEFAULT_CONFIG : Dict.t value :=
  [ ("claude", VDict [ ("timeout", VInt 120); ("output_format", VStr "json") ]);
    ("optimization", VDict [ ("variations", VInt 3); ("style", VStr "professional");
                             ("lang", VStr "auto"); ("max_chars", VInt 280) ]);
    ("display", VDict [ ("bar_width", VInt 24); ("show_all_signals", VBool false);
                        ("top_signals_count", VInt 8) ]) ].

(** The inner loop: [_config[key].setdefault(subkey, subvalue)] for every
    item of a default section. *)
Definition merge_section (defaults : Dict.t value) (section : Dict.t value) : Dict.t value :=
  fold_left (fun sec kv => Dict.setdefault (fst kv) (snd kv) sec) defaults section.

(** The outer loop over [_DEFAULT_CONFIG.items()], on the dictionary [cfg];
    when a section of [cfg] is not a dictionary, [setdefault] raises and
    [cfg] stays as the loop left it. *)
Fixpoint merge_defaults (defaults : list (string * value)) (cfg : Dict.t value)
  : result unit * Dict.t value :=
  match defaults with
  | [] => (Ok tt, cfg)
  | (key, value) :: rest =>
      match Dict.lookup key cfg with
      | None => merge_defaults rest (Dict.set key value cfg)
      | Some present =>
          match value with
          | VDict dflt =>
              match present with
              | VDict section =>
                  merge_defaults rest (Dict.set key (VDict (merge_section dflt section)) cfg)
              | _ => match dflt with
                     | [] => merge_defaults rest cfg
                     | _ :: _ => (Raise AttributeError, cfg)
                     end
              end
          | _ => merge_defaults rest cfg
          end
      end
  end.

(** The monad of this module and of [analyze]: a call is run in a process,
    returns or raises, leaves a process and a list of events. *)
Definition M (A : Type) : Type := process -> result A * process * list event.

Definition load_config : M value :=
  fun p =>
    match _config p with
    | Some c => (Ok c, p, [])
    | None =>
        let store c := {| _config := Some c; config_yaml := config_yaml p |} in
        let loaded :=
          match config_yaml p with
          | Parsed v => Some (if truthy v then v else VDict [])
          | FileNotFound | PermissionDenied | YamlError => Some (VDict [])
          | OtherFailure => None
          end in
        match loaded with
        | None => (Raise OSError, p, [ReadConfigFile])
        | Some (VDict d) =>
            match merge_defaults _DEFAULT_CONFIG d with
            | (Ok _, d') => (Ok (VDict d'), store (VDict d'), [ReadConfigFile])
            | (Raise e, d') => (Raise e, store (VDict d'), [ReadConfigFile])
            end
        | Some c => (Raise TypeError, store c, [ReadConfigFile])
        end
    end.

(** [v.get(key, default)] on a loaded value: only dictionaries have it. *)
Definition value_get (key : string) (default : value) (v : value) : result value :=
  match v with
  | VDict d => Ok (Dict.get key default d)
  | _ => Raise AttributeError
  end.

(** [config.get(key, default)] *)
Definition get (key : string) (default : value) : M value :=
  fun p =>
    match load_config p with
    | (Ok c, p', evs) => (value_get key default c, p', evs)
    | (Raise e, p', evs) => (Raise e, p', evs)
    end.

End Config.

(** ** analyzer.py *)

Module Analyzer.

Import Config.

(** The literals are the source file's, code point by code point. *)
Definition _TR_CHARS : list char :=
  [ 195; 167; 196; 376; 196; 177; 195; 182; 197; 376; 195; 188;
    195; 8225; 196; 382; 196; 176; 195; 8211; 197; 382; 195; 339 ]%N.

(** The patterns are [\b word \b]; the words are kept. *)
Definition _CTA_PATTERNS_EN : list str :=
  map lit [ "follow"; "retweet"; "share"; "like"; "check out"; "click";
            "subscribe"; "join"; "save this"; "bookmark"; "tag"; "drop";
            "comment"; "try"; "read" ].

Definition _CTA_PATTERNS_TR : list str :=
  [ lit "takip"; List.concat [lit "payla"; [197; 376]%N];
    List.concat [lit "be"; [196; 376]%N; lit "en"]; lit "bak";
    List.concat [lit "t"; [196; 177]%N; lit "kla"]; lit "abone";
    List.concat [lit "kat"; [196; 177]%N; lit "l"]; lit "kaydet"; lit "yorum"; lit "dene";
    lit "oku"; lit "yaz" ].

Definition _POWER_WORDS_EN : list str :=
  map lit [ "secret"; "shocking"; "truth"; "mistake"; "wrong"; "never";
            "always"; "must"; "stop"; "warning"; "proven"; "free";
            "exclusive"; "breaking"; "urgent"; "finally"; "revealed";
            "unpopular opinion"; "hot take"; "thread"; "lesson" ].

Definition _POWER_WORDS_TR : list str :=
  [ List.concat [lit "s"; [196; 177]%N; lit "r"]; List.concat [[197; 376]%N; lit "ok"];
    List.concat [lit "ger"; [195; 167]%N; lit "ek"]; lit "hata";
    List.concat [lit "yanl"; [196; 177; 197; 376]%N]; lit "asla"; lit "her zaman";
    lit "mutlaka"; lit "dur"; List.concat [lit "uyar"; [196; 177]%N];
    List.concat [lit "kan"; [196; 177]%N; lit "tlanm"; [196; 177; 197; 376]%N];
    List.concat [[195; 188]%N; lit "cretsiz"]; List.concat [[195; 182]%N; lit "zel"];
    lit "son dakika"; lit "acil"; lit "sonunda" ].

Definition trWords : list str :=
  [ lit "bir"; lit "bu"; lit "ve"; lit "ile"; List.concat [lit "i"; [195; 167]%N; lit "in"];
    lit "olan"; lit "var"; lit "gibi"; lit "ama"; List.concat [[195; 167]%N; lit "ok"];
    lit "daha"; lit "ben"; lit "sen"; lit "biz";
    List.concat [lit "de"; [196; 376]%N; lit "il"]; lit "olarak"; lit "kadar"; lit "sonra";
    List.concat [[195; 182]%N; lit "nce"]; List.concat [[197; 376]%N; lit "ey"] ].

Definition detect_language (text : str) : string :=
  if existsb (fun c => existsb (N.eqb c) _TR_CHARS) text then "tr"
  else
    let lower := Text.lower text in
    let trCount := List.length (filter (fun w => search_word w lower) trWords) in
    if (3 <=? trCount)%nat then "tr" else "en".

Definition hook_indicators : list str :=
  [ lit ":"; lit "?"; lit "!"; lit "..."; [226; 8364; 8221]%N;
    [240; 376; 8216; 8225]%N; [240; 376; 167; 181]%N ].

(** The class [[\d...]] of the list-line pattern: a digit or one of the
    characters written in the class. *)
Definition is_list_marker (c : char) : bool :=
  is_digit c
  || existsb (N.eqb c)
       [ 226; 8364; 162; 45; 42; 226; 8211; 186; 226; 8211; 184; 226; 8224; 8217 ]%N.

(** [re.match(r"^\s*[...]\s*", l)] matches. *)
Definition match_list_line (l : str) : bool :=
  match lstrip l with
  | c :: _ => is_list_marker c
  | [] => false
  end.

Definition is_emoji (c : char) : bool :=
  (in_range 0x1f300 0x1faff c || in_range 0x1fb00 0x1fbff c
   || in_range 0x2600 0x27bf c || in_range 0xfe00 0xfeff c)%N.

(** [char_count / maxChars * 100]: true division by the configured value. *)
Definition utilization (char_count : nat) (maxChars : value) : result float :=
  let by_int (z : Z) :=
    if (z =? 0)%Z then Raise ZeroDivisionError
    else Ok (int_truediv (Z.of_nat char_count) z * 100)%float in
  match maxChars with
  | VInt z => by_int z
  | VBool b => by_int (if b then 1 else 0)
  | VFloat f =>
      if (f =? 0)%float then Raise ZeroDivisionError
      else Ok (float_of_nat char_count / f * 100)%float
  | _ => Raise TypeError
  end.

(** Everything [analyze] computes from the text before it reads the
    configuration, and the dictionary it returns, given the utilisation
    ratio. *)
Definition features (text : str) (has_media : bool) (ratio : float) : analysis :=
  let lines := filter (fun l => nonempty (strip l)) (split_on 10%N (strip text)) in
  let first_line := match lines with l :: _ => strip l | [] => [] end in
  let char_count := List.length text in
  let word_count := List.length (split_ws text) in
  let hashtags := findall_hashtags text in
  let has_url := search_url text in
  let questions := count_char 63%N text in
  let lang := detect_language text in
  let has_hook :=
    existsb (fun h => endswith h first_line) hook_indicators
    || (List.length first_line <? 60)%nat in
  let lower_text := Text.lower text in
  let cta_patterns := if String.eqb lang "tr" then _CTA_PATTERNS_TR else _CTA_PATTERNS_EN in
  let cta_matches := filter (fun p => search_word p lower_text) cta_patterns in
  let power_words := if String.eqb lang "tr" then _POWER_WORDS_TR else _POWER_WORDS_EN in
  let found_power := filter (fun w => contains w lower_text) power_words in
  let has_numbers := search_number text in
  let list_lines := filter match_list_line lines in
  let has_list := (2 <=? List.length list_lines)%nat in
  let emoji_count := List.length (filter is_emoji text) in
  {| char_count := char_count;
     char_utilization := py_round ratio 1;
     word_count := word_count;
     line_count := List.length lines;
     first_line := first_line;
     has_hook := has_hook;
     has_question := (0 <? questions)%nat;
     question_count := questions;
     hashtag_count := List.length hashtags;
     hashtags := hashtags;
     has_url := has_url;
     has_media := has_media;
     lang := lang;
     has_cta := (0 <? List.length cta_matches)%nat;
     cta_count := List.length cta_matches;
     power_word_count := List.length found_power;
     power_words_found := found_power;
     has_numbers := has_numbers;
     has_list_format := has_list;
     emoji_count := emoji_count |}.

(** [config.get("optimization", {}).get("max_chars", 280)] *)
Definition configured_max_chars : M value :=
  fun p =>
    match Config.get "optimization" (VDict []) p with
    | (Ok section, p', evs) => (value_get "max_chars" (VInt 280) section, p', evs)
    | (Raise e, p', evs) => (Raise e, p', evs)
    end.

Definition analyze (text : str) (has_media : bool) : M analysis :=
  fun p =>
    match configured_max_chars p with
    | (Ok maxChars, p', evs) =>
        match utilization (List.length text) maxChars with
        | Ok ratio => (Ok (features text has_media ratio), p', evs)
        | Raise e => (Raise e, p', evs)
        end
    | (Raise e, p', evs) => (Raise e, p', evs)
    end.

End Analyzer.
Import Analyzer.

(** ** optimizer.py: validation of a generated variation *)

Module Optimizer.

(** A JSON value as [json.loads] returns it. *)
Inductive jvalue :=
  | JNull
  | JBool (b : bool)
  | JInt (z : Z)
  | JFloat (f : float)
  | JStr (s : str)
  | JArray
  | JObject.

(** [isinstance(val, (int, float))]; [bool] is a subclass of [int]. *)
Definition is_number (val : jvalue) : bool :=
  match val with
  | JBool _ | JInt _ | JFloat _ => true
  | _ => false
  end.

(** [0.0 <= val <= 1.0] for a number. *)
Definition in_unit_range (val : jvalue) : bool :=
  match val with
  | JFloat f => (0.0 <=? f)%float && (f <=? 1.0)%float
  | JInt z => (0 <=? z)%Z && (z <=? 1)%Z
  | JBool _ => true
  | _ => false
  end.

(** The warning strings, by their format. *)
Inductive warning :=
  | MissingTweetText                                (* "Missing tweet text" *)
  | TweetExceeds (max_chars : Z) (len : nat)        (* "Tweet exceeds {max_chars} chars: {len(tweet)}" *)
  | MissingScores (missing : list string)           (* "Missing scores: {', '.join(missing)}" *)
  | NonNumericScore (action : string) (val : jvalue)  (* "Non-numeric score for {action}: {val}" *)
  | ScoreOutOfRange (action : string) (val : jvalue). (* "Score out of range for {action}: {val}" *)

(** The keys of a variation that validation and comparison read: the
    text, a string when present, and the scores, an object when present. *)
Record variation := {
  tweet : option str;
  scores : option (Dict.t jvalue)
}.

Definition score_warnings (item : string * jvalue) : list warning :=
  let (action, val) := item in
  if negb (is_number val) then [NonNumericScore action val]
  else if negb (in_unit_range val) then [ScoreOutOfRange action val]
  else [].

Definition validate_variation (var : variation) (max_chars : Z) : list warning :=
  let warnings := [] in
  let tweet := match tweet var with Some t => t | None => [] end in
  let warnings :=
    if negb (nonempty tweet) then (warnings ++ [MissingTweetText])%list
    else if (max_chars <? Z.of_nat (List.length tweet))%Z
         then (warnings ++ [TweetExceeds max_chars (List.length tweet)])%list
         else warnings in
  let scores := match scores var with Some s => s | None => Dict.empty end in
  let missing := filter (fun a => negb (Dict.mem a scores)) ACTIONS in
  let warnings :=
    match missing with
    | [] => warnings
    | _ :: _ => (warnings ++ [MissingScores missing])%list
    end in
  (warnings ++ flat_map score_warnings (Dict.items scores))%list.

(** [for action in ACTIONS: var["scores"].setdefault(action, 0.0)] *)
Definition fill_missing_scores (scores : Dict.t jvalue) : Dict.t jvalue :=
  fold_left (fun s action => Dict.setdefault action (JFloat 0.0) s) ACTIONS scores.

(** One turn of the validation loop of [optimize]: the warnings, the line
    printed when there are some, and the variation with its scores filled. *)
Definition check_variation (var : variation) (max_chars : Z)
  : list warning * list event * variation :=
  let warnings := validate_variation var max_chars in
  let evs := match warnings with [] => [] | _ :: _ => [PrintStderr] end in
  let var' :=
    match scores var with
    | Some s => {| tweet := tweet var; scores := Some (fill_missing_scores s) |}
    | None => var
    end in
  (warnings, evs, var').

(** The number a score stands for in the arithmetic of [scorer.py]. *)
Definition as_float (val : jvalue) : result float :=
  match val with
  | JFloat f => Ok f
  | JInt z =>
      let f := float_of_Z z in
      if is_infinity f then Raise OverflowError else Ok f
  | JBool b => Ok (if b then 1.0 else 0.0)%float
  | _ => Raise TypeError
  end.

(** *** scorer.py on a decoded dictionary

    [optimize] hands [var["scores"]] to [comparison_report] as the decoder
    built it and as the loop of [setdefault]s left it.  The functions of
    [scorer.py] are given here at that type: the arithmetic reads a value
    through [as_float] and raises where Python's does, and a value that
    the report holds is the supplied value itself. *)

Module Supplied.

Local Open Scope float_scope.

(** [opt > 0.0]; an integer is compared exactly. *)
Definition gt_zero (opt : jvalue) : result bool :=
  match opt with
  | JFloat f => Ok (gtb f 0.0)
  | JInt z => Ok (0 <? z)%Z
  | JBool b => Ok b
  | _ => Raise TypeError
  end.

(** One entry of the dictionary returned by [compute_delta]. *)
Record delta := {
  original : float;
  optimized : jvalue;
  delta_pct : float;
  direction : string;
  is_new : bool
}.

(** The percentage change before it is rounded: the local [delta_pct]. *)
Definition raw_delta_pct (orig : float) (opt : jvalue) (isNew : bool) : result float :=
  if isNew then Ok 100.0
  else if orig =? 0.0 then Ok 0.0
  else match as_float opt with
       | Ok f => Ok (((f - orig) / orig) * 100)
       | Raise e => Raise e
       end.

(** The body of the loop of [compute_delta] for one [action]; [and] does
    not evaluate [opt > 0.0] when [orig == 0.0] is false. *)
Definition delta_of (action : string) (orig : float) (opt : jvalue) : result delta :=
  match (if orig =? 0.0 then gt_zero opt else Ok false) with
  | Raise e => Raise e
  | Ok isNew =>
      match raw_delta_pct orig opt isNew with
      | Raise e => Raise e
      | Ok delta_pct =>
          let is_negative := is_negative_action action in
          let direction :=
            if is_negative
            then (if delta_pct <? 0 then "improved" else "worse")
            else (if gtb delta_pct 0 then "improved" else "worse") in
          Ok {| original := orig;
                optimized := opt;
                delta_pct := py_round delta_pct 1;
                direction := direction;
                is_new := isNew |}
      end
  end.

(** The loop of [compute_delta] from [actions] on, with the dictionary
    [result] as built so far ([entries]); an exception leaves it. *)
Fixpoint compute_delta_from (actions : list string) (original : Dict.t float)
    (optimized : Dict.t jvalue) (entries : Dict.t delta) : result (Dict.t delta) :=
  match actions with
  | [] => Ok entries
  | action :: rest =>
      let orig := Dict.get action 0.0 original in
      let opt := Dict.get action (JFloat 0.0) optimized in
      match delta_of action orig opt with
      | Raise e => Raise e
      | Ok d => compute_delta_from rest original optimized (Dict.set action d entries)
      end
  end.

Definition compute_delta (original : Dict.t float) (optimized : Dict.t jvalue)
  : result (Dict.t delta) :=
  compute_delta_from ACTIONS original optimized Dict.empty.

(** The weighted sum from [actions] on, accumulated in catalog order as in
    [Algorithm.weighted_sum]. *)
Fixpoint weighted_sum_from (actions : list string) (signals : Dict.t jvalue)
    (acc : float) : result float :=
  match actions with
  | [] => Ok acc
  | action :: rest =>
      match as_float (Dict.get action (JFloat 0.0) signals) with
      | Raise e => Raise e
      | Ok f => weighted_sum_from rest signals (acc + f * Dict.get action 0 ACTION_WEIGHTS)
      end
  end.

(** Modelled from the spec: [compute_weighted_score] of
    [x_content/algorithm.py] (section 4.3) on a decoded dictionary: the
    weighted sum over the 19 catalog entries, doubled when it is negative;
    a missing id counts as 0.0, and the product raises on a value that is
    not a number. *)
Definition compute_weighted_score (signals : Dict.t jvalue) (has_media : bool)
  : result float :=
  match weighted_sum_from ACTIONS signals 0 with
  | Raise e => Raise e
  | Ok combined => Ok (if combined <? 0 then combined * 2 else combined)
  end.

(** The value under "optimized" in the result of [comparison_report]. *)
Record optimized_scores_report := {
  signals : Dict.t jvalue;
  weighted_score : float
}.

Record comparison := {
  original_report : score_report;
  optimized_report : optimized_scores_report;
  delta_report : Dict.t delta;
  weighted_score_original : float;
  weighted_score_optimized : float;
  weighted_score_change : float
}.

Definition comparison_report (original_analysis : analysis)
    (optimized_scores : Dict.t jvalue) (has_media : bool) : result comparison :=
  let orig_report := full_score_report original_analysis has_media in
  match compute_weighted_score optimized_scores has_media with
  | Raise e => Raise e
  | Ok opt_weighted =>
      match compute_delta (Scorer.signals orig_report) optimized_scores with
      | Raise e => Raise e
      | Ok delta =>
          Ok {| original_report := orig_report;
                optimized_report := {| signals := optimized_scores;
                                       weighted_score := py_round opt_weighted 2 |};
                delta_report := delta;
                weighted_score_original := Scorer.weighted_score orig_report;
                weighted_score_optimized := py_round opt_weighted 2;
                weighted_score_change :=
                  py_round (opt_weighted - Scorer.weighted_score orig_report) 2 |}
      end
  end.

End Supplied.

(** One turn of the comparison loop of [optimize]: the report of
    [comparison_report] on the scores of the variation, [None] for a
    variation without scores. *)
Definition compare_variation (analysis : analysis) (var : variation) (has_media : bool)
  : result (option Supplied.comparison) :=
  match scores var with
  | Some s =>
      match Supplied.comparison_report analysis s has_media with
      | Ok comp => Ok (Some comp)
      | Raise e => Raise e
      end
  | None => Ok None
  end.

End Optimizer.
Import Optimizer.

(** ** Predicates and values used in the statements *)

(** [0.0 <= v <= 1.0] *)
Definition in_unit (v : float) : Prop :=
  (0 <=? v)%float = true /\ (v <=? 1)%float = true.

(** The keys [score_tweet] assigns, in the order of its assignments. *)
Definition score_keys : list string :=
  [ "favorite_score"; "reply_score"; "repost_score"; "photo_expand_score";
    "click_score"; "profile_click_score"; "vqv_score"; "share_score";
    "share_via_dm_score"; "share_via_copy_link_score"; "dwell_score";
    "quote_score"; "quoted_click_score"; "follow_author_score";
    "not_interested_score"; "block_author_score"; "mute_author_score";
    "report_score"; "dwell_time" ].

(** The text is empty or has whitespace only. *)
Definition blank (s : str) : bool := forallb is_space s.

(** Every whitespace character. *)
Definition space_chars : list char :=
  [ 9; 10; 11; 12; 13; 28; 29; 30; 31; 32; 133; 160; 5760; 8192; 8193; 8194;
    8195; 8196; 8197; 8198; 8199; 8200; 8201; 8202; 8232; 8233; 8239; 8287;
    12288 ]%N.

(** The record [analyze] builds for blank text. *)
Definition blank_analysis (n : nat) (has_media : bool) (ratio : float) : analysis :=
  {| char_count := n;
     char_utilization := py_round ratio 1;
     word_count := 0;
     line_count := 0;
     first_line := [];
     has_hook := true;
     has_question := false;
     question_count := 0;
     hashtag_count := 0;
     hashtags := [];
     has_url := false;
     has_media := has_media;
     lang := "en";
     has_cta := false;
     cta_count := 0;
     power_word_count := 0;
     power_words_found := [];
     has_numbers := false;
     has_list_format := false;
     emoji_count := 0 |}.



(** A generated variation whose reply score is a word instead of a number. *)
Definition worded_scores : Dict.t jvalue :=
  [ ("favorite_score", JFloat 0.5); ("reply_score", JStr (lit "high")) ].

Definition worded_variation : variation :=
  {| tweet := Some (lit "hello"); scores := Some worded_scores |}.



(** ** Inputs used in the examples *)

(** The text of the end-to-end example; its last character is U+1F9F5. *)
Definition example_text : str :=
  (lit "Is AI going to replace your job? Thread " ++ [0x1F9F5%N])%list.

(** A process that has not loaded its configuration, without [config.yaml]. *)
Definition fresh_process : Config.process :=
  {| Config._config := None; Config.config_yaml := Config.FileNotFound |}.

(** The same process once [load_config] has run: the defaults are cached. *)
Definition loaded_process : Config.process :=
  {| Config._config := Some (Config.VDict Config._DEFAULT_CONFIG);
     Config.config_yaml := Config.FileNotFound |}.

(** ** optimizer.py: reading the generator's response *)

Module Response.

(** The three backquotes of a markdown code fence. *)
Definition fence : str := [96; 96; 96]%N.

(** [a == b] on strings *)
Fixpoint str_eqb (a b : str) : bool :=
  match a, b with
  | [], [] => true
  | x :: a', y :: b' => N.eqb x y && str_eqb a' b'
  | _, _ => false
  end.

(** ["\n".join(lines)] *)
Fixpoint join_lines (lines : list str) : str :=
  match lines with
  | [] => []
  | [l] => l
  | l :: rest => (l ++ 10%N :: join_lines rest)%list
  end.

(** [lines[i].strip() == "```"] *)
Definition is_fence_line (l : str) : bool := str_eqb (strip l) fence.

(** The loop [for i in range(len(lines) - 1, 0, -1)] with its [break]: the
    greatest index of a fence line, among the lines after the first one;
    [ls] holds the lines from index [i] on. *)
Fixpoint last_fence (i : nat) (ls : list str) : option nat :=
  match ls with
  | [] => None
  | l :: rest =>
      match last_fence (S i) rest with
      | Some j => Some j
      | None => if is_fence_line l then Some i else None
      end
  end.

(** The text [parse_response] hands to [json.loads]. *)
Definition strip_code_fence (text : str) : str :=
  let cleaned := strip text in
  if startswith fence cleaned then
    let lines := split_on 10%N cleaned in
    let start := 1%nat in
    let end_ :=
      match last_fence 1 (tl lines) with
      | Some i => i
      | None => List.length lines
      end in
    join_lines (firstn (end_ - start) (skipn start lines))
  else cleaned.

(** [parse_response], with [json.loads] as a parameter: [None] is the
    [OptimizationError] raised when the decoder fails. *)
Definition parse_response {A : Type} (json_loads : str -> option A) (text : str)
  : option A :=
  json_loads (strip_code_fence text).

End Response.
Import Response.

(** ** optimize.py: the guard of [main] *)

Module Cli.

(** [main] goes on with the tweet text when neither [not tweet] nor
    [not tweet.strip()] holds; otherwise it prints an error and exits. *)
Definition accepts (tweet : str) : bool :=
  nonempty tweet && nonempty (strip tweet).

End Cli.

(** ** Shapes of a configuration file *)

(** [isinstance(v, dict)] *)
Definition is_dict (v : Config.value) : bool :=
  match v with Config.VDict _ => true | _ => false end.

(** The section [key] of the loaded mapping is absent or is a mapping. *)
Definition section_ok (key : string) (d : Dict.t Config.value) : bool :=
  match Dict.lookup key d with
  | Some v => is_dict v
  | None => true
  end.

(** The maximum character count that a loaded mapping asks for. *)
Definition requested_max_chars (d : Dict.t Config.value) : Config.value :=
  match Dict.lookup "optimization" d with
  | Some (Config.VDict section) => Dict.get "max_chars" (Config.VInt 280) section
  | _ => Config.VInt 280
  end.

(** The value under [key] once the defaults are merged in. *)
Definition merged_entry (defaults cfg : Dict.t Config.value) (key : string)
  : option Config.value :=
  match Dict.lookup key defaults with
  | Some (Config.VDict dflt) =>
      Some (Config.VDict match Dict.lookup key cfg with
                  | Some (Config.VDict section) => Config.merge_section dflt section
                  | _ => dflt
                  end)
  | _ => Dict.lookup key cfg
  end.

(** ** Ranges of the estimates *)

(** [lo <= v <= hi] *)
Definition within (lo hi v : float) : bool := ((lo <=? v) && (v <=? hi))%float.

(** For each signal, its base and the sum of its base and all its bonuses,
    as decimals. *)
Definition estimate_bounds : list (string * (float * float)) :=
  [ ("favorite_score", (0.20, 0.75)); ("reply_score", (0.10, 0.78));
    ("repost_score", (0.15, 0.50)); ("photo_expand_score", (0.05, 0.55));
    ("click_score", (0.05, 0.50)); ("profile_click_score", (0.10, 0.33));
    ("vqv_score", (0.02, 0.17)); ("share_score", (0.10, 0.45));
    ("share_via_dm_score", (0.05, 0.40)); ("share_via_copy_link_score", (0.05, 0.30));
    ("dwell_score", (0.15, 0.50)); ("quote_score", (0.08, 0.33));
    ("quoted_click_score", (0.05, 0.05)); ("follow_author_score", (0.08, 0.29));
    ("dwell_time", (0.15, 0.65)); ("not_interested_score", (0.10, 0.43));
    ("block_author_score", (0.03, 0.08)); ("mute_author_score", (0.05, 0.10));
    ("report_score", (0.02, 0.02)) ]%float.

(** * Properties *)

(** ** Floating-point facts *)

Module FloatFacts.

Local Open Scope float_scope.


Lemma Prim2SF_zero : Prim2SF 0 = S754_zero false.
Proof. reflexivity. Qed.

Lemma Prim2SF_one : Prim2SF 1 = S754_finite false 4503599627370496 (-52).
Proof. reflexivity. Qed.

Lemma ltb_leb (x y : float) : (x <? y) = true -> (x <=? y) = true.
Proof.
  rewrite ltb_spec, leb_spec. unfold SFltb, SFleb.
  destruct (SFcompare (Prim2SF x) (Prim2SF y)) as [[ | | ] | ]; easy.
Qed.

(** A float equal to zero is neither below nor above zero. *)
Lemma eqb_zero_no_sign (x : float) :
  (x =? 0) = true -> (x <? 0) = false /\ (0 <? x) = false.
Proof.
  rewrite eqb_spec, !ltb_spec, Prim2SF_zero.
  unfold SFeqb, SFltb.
  destruct (Prim2SF x) as [s | s | | s m e]; try destruct s; cbn; intuition congruence.
Qed.

(** What a float of the unit interval looks like. *)
Lemma in_unit_cases (v : float) :
  in_unit v ->
  (exists s, Prim2SF v = S754_zero s) \/ (exists m e, Prim2SF v = S754_finite false m e).
Proof.
  intros [H0 H1]. rewrite leb_spec, Prim2SF_zero in H0. rewrite leb_spec, Prim2SF_one in H1.
  unfold SFleb in H0, H1.
  destruct (Prim2SF v) as [s | s | | s m e].
  - left; eauto.
  - destruct s; cbn in H0, H1; discriminate.
  - cbn in H0; discriminate.
  - destruct s; cbn in H0; try discriminate. right; eauto.
Qed.

Lemma sub_diag_finite (s : bool) (m : positive) (e : Z) :
  SF64sub (S754_finite s m e) (S754_finite s m e) = S754_zero false.
Proof.
  unfold SF64sub, SFsub. rewrite Z.min_id, Z.sub_diag. reflexivity.
Qed.

(** The percentage change of a value of the unit interval against itself. *)
Lemma self_change (v : float) :
  in_unit v -> (v =? 0) = false -> ((v - v) / v) * 100 = 0.
Proof.
  intros Hv Hnz. apply Prim2SF_inj.
  rewrite mul_spec, div_spec, sub_spec, Prim2SF_zero.
  destruct (in_unit_cases v Hv) as [[s E] | [m [e E]]].
  - rewrite eqb_spec, E, Prim2SF_zero in Hnz. destruct s; discriminate.
  - rewrite E, sub_diag_finite. reflexivity.
Qed.

End FloatFacts.
Import FloatFacts.

(** ** Dictionaries *)

Module DictFacts.

Lemma lookup_set_eq {V} (k : string) (v : V) (d : Dict.t V) :
  Dict.lookup k (Dict.set k v d) = Some v.
Proof.
  induction d as [ | [k' v'] d IH]; cbn.
  - now rewrite String.eqb_refl.
  - destruct (String.eqb k k') eqn:E; cbn; rewrite E; auto.
Qed.

Lemma lookup_set_neq {V} (k k' : string) (v : V) (d : Dict.t V) :
  k <> k' -> Dict.lookup k (Dict.set k' v d) = Dict.lookup k d.
Proof.
  intros Hne. induction d as [ | [k0 v0] d IH]; cbn.
  - destruct (String.eqb k k') eqn:E; auto. apply String.eqb_eq in E. contradiction.
  - destruct (String.eqb k' k0) eqn:E'; cbn.
    + apply String.eqb_eq in E'; subst k0.
      destruct (String.eqb k k') eqn:E; auto. apply String.eqb_eq in E. contradiction.
    + now rewrite IH.
Qed.

Lemma lookup_In {V} (k : string) (v : V) (d : Dict.t V) :
  Dict.lookup k d = Some v -> In (k, v) d.
Proof.
  induction d as [ | [k' v'] d IH]; cbn; [discriminate | ].
  destruct (String.eqb k k') eqn:E.
  - apply String.eqb_eq in E. intros [= ->]. subst. now left.
  - auto.
Qed.

(** A loop that assigns [f a] under every key [a] of a list leaves the
    other keys alone... *)
Lemma lookup_fold_set_other {V} (f : string -> V) (l : list string) (d : Dict.t V) (k : string) :
  ~ In k l ->
  Dict.lookup k (fold_left (fun r a => Dict.set a (f a) r) l d) = Dict.lookup k d.
Proof.
  revert d. induction l as [ | a l IH]; intros d Hnin; cbn; [reflexivity | ].
  rewrite IH by (intros Hc; apply Hnin; now right).
  apply lookup_set_neq. intros ->. apply Hnin. now left.
Qed.

(** ... and binds each key of the list to its value. *)
Lemma lookup_fold_set {V} (f : string -> V) (l : list string) (d : Dict.t V) (k : string) :
  In k l ->
  Dict.lookup k (fold_left (fun r a => Dict.set a (f a) r) l d) = Some (f k).
Proof.
  revert d. induction l as [ | a l IH]; intros d; cbn; [easy | ].
  intros Hin. destruct (in_dec string_dec k l) as [Hl | Hl]; [now apply IH | ].
  destruct Hin as [-> | Hin]; [ | contradiction].
  rewrite lookup_fold_set_other by assumption. apply lookup_set_eq.
Qed.

(** [setdefault] keeps what is there and defines what is not. *)
Lemma lookup_setdefault_present {V} (k k' : string) (v v' : V) (d : Dict.t V) :
  Dict.lookup k d = Some v -> Dict.lookup k (Dict.setdefault k' v' d) = Some v.
Proof.
  intros H. unfold Dict.setdefault, Dict.mem.
  destruct (Dict.lookup k' d) eqn:E; auto.
  destruct (string_dec k k') as [-> | Hne]; [congruence | ].
  now rewrite lookup_set_neq.
Qed.

Lemma lookup_setdefault_absent {V} (k : string) (v : V) (d : Dict.t V) :
  Dict.lookup k d = None -> Dict.lookup k (Dict.setdefault k v d) = Some v.
Proof.
  intros H. unfold Dict.setdefault, Dict.mem. rewrite H. apply lookup_set_eq.
Qed.

End DictFacts.
Import DictFacts.

(** ** The heuristic estimator *)

Module ScorerFacts.

Local Open Scope float_scope.

Lemma clamp01_in_unit (v : float) : in_unit (clamp01 v).
Proof.
  unfold in_unit, clamp01, _clamp, py_max, py_min.
  destruct (v <? 1) eqn:H1.
  - destruct (0 <? v) eqn:H0.
    + split; now apply ltb_leb.
    + split; reflexivity.
  - split; reflexivity.
Qed.


Lemma score_tweet_keys (a : analysis) : Dict.keys (score_tweet a) = score_keys.
Proof. reflexivity. Qed.

Lemma score_tweet_values (a : analysis) :
  Forall (fun kv => in_unit (snd kv)) (score_tweet a).
Proof.
  unfold score_tweet, Dict.empty.
  cbn [Dict.set String.eqb Ascii.eqb Bool.eqb].
  repeat (apply Forall_cons; [ first [ apply clamp01_in_unit | split; reflexivity ] | ]).
  apply Forall_nil.
Qed.

Lemma get_score_in_unit (a : analysis) (id : string) :
  in_unit (Dict.get id 0 (score_tweet a)).
Proof.
  unfold Dict.get. destruct (Dict.lookup id (score_tweet a)) as [v | ] eqn:E.
  - apply lookup_In in E.
    pose proof (score_tweet_values a) as H. rewrite Forall_forall in H.
    exact (H _ E).
  - split; reflexivity.
Qed.

Lemma compute_delta_lookup (orig_scores opt_scores : Dict.t float) (action : string) :
  In action ACTIONS ->
  Dict.lookup action (compute_delta orig_scores opt_scores)
  = Some (delta_of action (Dict.get action 0 orig_scores) (Dict.get action 0 opt_scores)).
Proof.
  intros Hin. unfold compute_delta.
  exact (lookup_fold_set
           (fun a => delta_of a (Dict.get a 0 orig_scores) (Dict.get a 0 opt_scores))
           ACTIONS Dict.empty action Hin).
Qed.

(** The entry of a value of the unit interval compared with itself. *)
Lemma delta_of_self (action : string) (v : float) :
  in_unit v ->
  delta_pct (delta_of action v v) = 0 /\ is_new (delta_of action v v) = false.
Proof.
  intros Hv. unfold delta_of, raw_delta_pct, gtb; cbn [delta_pct is_new].
  destruct (v =? 0) eqn:E.
  - destruct (eqb_zero_no_sign v E) as [_ ->]. cbn. split; reflexivity.
  - cbn. rewrite (self_change v Hv E). split; reflexivity.
Qed.

End ScorerFacts.
Import ScorerFacts.

(** ** The feature extractor on blank text *)

Module AnalyzerFacts.

Import Config.


Lemma is_space_enum (c : char) : is_space c = true -> In c space_chars.
Proof.
  unfold is_space, in_range.
  rewrite !orb_true_iff, !andb_true_iff, !N.leb_le, !N.eqb_eq.
  cbn [In space_chars]. lia.
Qed.

(** A test that fails on each whitespace character fails on all of them. *)
Lemma on_space (P : char -> bool) :
  forallb (fun c => negb (P c)) space_chars = true ->
  forall c, is_space c = true -> P c = false.
Proof.
  intros H c Hc. rewrite forallb_forall in H.
  apply negb_true_iff, H, is_space_enum, Hc.
Qed.

Lemma blank_cons (c : char) (s : str) :
  blank (c :: s) = true -> is_space c = true /\ blank s = true.
Proof. unfold blank; cbn. apply andb_true_iff. Qed.

(** Induction on blank text: the empty case is closed by computation; in
    the other one the head [c] is whitespace ([Hc]), the tail is blank
    ([Hs]) and [IH] is the induction hypothesis. *)
Ltac blank_induction s :=
  induction s as [ | c s IH];
  [ reflexivity
  | let Hb := fresh "Hb" in
    intros Hb; apply blank_cons in Hb as [Hc Hs]; cbn ].

Lemma existsb_blank (P : char -> bool) (s : str) :
  forallb (fun c => negb (P c)) space_chars = true ->
  blank s = true -> existsb P s = false.
Proof.
  intros HP. blank_induction s. now rewrite (on_space P HP c Hc), IH.
Qed.

Lemma filter_blank (P : char -> bool) (s : str) :
  forallb (fun c => negb (P c)) space_chars = true ->
  blank s = true -> filter P s = [].
Proof.
  intros HP. blank_induction s. now rewrite (on_space P HP c Hc), IH.
Qed.

Lemma lstrip_blank (s : str) : blank s = true -> lstrip s = [].
Proof. blank_induction s. now rewrite Hc, IH. Qed.

Lemma strip_blank (s : str) : blank s = true -> strip s = [].
Proof. intros Hb. unfold strip. now rewrite lstrip_blank. Qed.

Lemma split_ws_blank (s : str) : blank s = true -> split_ws s = [].
Proof. blank_induction s. now rewrite Hc, IH. Qed.

Lemma findall_hashtags_blank (s : str) : blank s = true -> findall_hashtags s = [].
Proof.
  unfold findall_hashtags. blank_induction s.
  rewrite (on_space (fun c => N.eqb c 35) eq_refl c Hc). now apply IH.
Qed.

Lemma lower_blank (s : str) : blank s = true -> Text.lower s = s.
Proof.
  unfold Text.lower. generalize (@nil N) as before.
  induction s as [ | c s IH]; [reflexivity | ].
  intros before Hb. apply blank_cons in Hb as [Hc Hs].
  cbn [lower_from]. rewrite IH by assumption.
  rewrite (on_space (fun c => N.eqb c 931) eq_refl c Hc).
  apply is_space_enum in Hc. cbn [In space_chars] in Hc.
  repeat (destruct Hc as [<- | Hc]; [reflexivity | ]). contradiction.
Qed.

(** A literal that starts with a character other than whitespace is
    not a prefix of blank text, does not occur in it, and is not matched
    in it as a word. *)
Section Literal.

Variable w : str.
Hypothesis w_starts : starts_nonspace w = true.

Lemma strip_prefix_blank (s : str) : blank s = true -> strip_prefix w s = None.
Proof.
  destruct w as [ | a w']; [discriminate | ].
  destruct s as [ | c s]; [reflexivity | ].
  intros Hb. apply blank_cons in Hb as [Hc Hs]. cbn.
  destruct (N.eqb a c) eqn:E; [ | reflexivity].
  apply N.eqb_eq in E; subst c. cbn in w_starts. now rewrite Hc in w_starts.
Qed.

Lemma contains_blank (s : str) : blank s = true -> contains w s = false.
Proof.
  induction s as [ | c s IH]; intros Hb.
  - cbn. unfold startswith. now rewrite strip_prefix_blank.
  - pose proof Hb as Hb'. apply blank_cons in Hb' as [Hc Hs].
    cbn [contains]. unfold startswith. rewrite strip_prefix_blank by assumption.
    now apply IH.
Qed.

Lemma search_word_blank (s : str) : blank s = true -> search_word w s = false.
Proof.
  unfold search_word. generalize (@None char) as prev.
  induction s as [ | c s IH]; intros prev Hb.
  - cbn [search_word_from]. unfold match_word_at.
    rewrite strip_prefix_blank by assumption. now rewrite andb_false_r.
  - pose proof Hb as Hb'. apply blank_cons in Hb' as [Hc Hs].
    cbn [search_word_from]. unfold match_word_at.
    rewrite strip_prefix_blank by assumption. rewrite andb_false_r.
    now apply IH.
Qed.

End Literal.

Lemma filter_literals_blank (f : str -> bool) (ws : list str) :
  (forall w, starts_nonspace w = true -> f w = false) ->
  forallb starts_nonspace ws = true ->
  filter f ws = [].
Proof.
  intros Hf. induction ws as [ | w ws IH]; [reflexivity | ].
  cbn. intros H. apply andb_true_iff in H as [Hw Hws].
  now rewrite (Hf w Hw), IH.
Qed.

Lemma search_url_blank (s : str) : blank s = true -> search_url s = false.
Proof.
  induction s as [ | c s IH]; [reflexivity | ].
  intros Hb. pose proof Hb as Hb'. apply blank_cons in Hb' as [Hc Hs].
  cbn [search_url]. unfold match_url_at.
  rewrite (strip_prefix_blank (lit "http") eq_refl) by assumption.
  now apply IH.
Qed.

Lemma detect_language_blank (s : str) : blank s = true -> detect_language s = "en".
Proof.
  intros Hb. unfold detect_language.
  rewrite (existsb_blank (fun c => existsb (N.eqb c) _TR_CHARS) s eq_refl Hb).
  rewrite lower_blank by assumption.
  rewrite (filter_literals_blank (fun w => search_word w s) trWords); [reflexivity | | reflexivity].
  intros w Hw. now apply search_word_blank.
Qed.


Lemma features_blank (text : str) (has_media : bool) (ratio : float) :
  blank text = true ->
  features text has_media ratio = blank_analysis (List.length text) has_media ratio.
Proof.
  intros Hb. unfold features, count_char, search_number.
  rewrite strip_blank, split_ws_blank, findall_hashtags_blank, search_url_blank,
    detect_language_blank, lower_blank by assumption.
  rewrite (filter_blank (N.eqb 63) text eq_refl Hb).
  rewrite (filter_blank is_emoji text eq_refl Hb).
  rewrite (existsb_blank is_digit text eq_refl Hb).
  cbn [String.eqb Ascii.eqb Bool.eqb].
  rewrite (filter_literals_blank (fun p => search_word p text) _CTA_PATTERNS_EN);
    [ | intros w Hw; now apply search_word_blank | reflexivity].
  rewrite (filter_literals_blank (fun w => contains w text) _POWER_WORDS_EN);
    [ | intros w Hw; now apply contains_blank | reflexivity].
  reflexivity.
Qed.

End AnalyzerFacts.
Import AnalyzerFacts.

(** ** The configuration cache *)

Module ConfigFacts.

Import Config.

(** A call that returns has cached what it returned. *)
Lemma load_config_caches (p p' : process) (c : value) (evs : list event) :
  load_config p = (Ok c, p', evs) ->
  _config p' = Some c /\ config_yaml p' = config_yaml p.
Proof.
  unfold load_config. destruct (_config p) as [c0 | ] eqn:E.
  - intros [= <- <- <-]. auto.
  - destruct (config_yaml p) as [ | | | | v]; cbv beta iota zeta;
      try discriminate.
    1-3: destruct (merge_defaults _DEFAULT_CONFIG []) as [[[] | e] d'];
         intros [= <- <- <-]; auto.
    destruct (if truthy v then v else VDict []) as [ | b | z | f | s | l | d];
      try discriminate.
    destruct (merge_defaults _DEFAULT_CONFIG d) as [[[] | e] d'];
      intros [= <- <- <-]; auto.
Qed.

(** With the cache filled, nothing is read and nothing changes. *)
Lemma load_config_cached (p : process) (c : value) :
  _config p = Some c -> load_config p = (Ok c, p, []).
Proof. intros E. unfold load_config. now rewrite E. Qed.

(** With the cache empty, the file is opened. *)
Lemma load_config_reads (p : process) :
  _config p = None -> snd (load_config p) = [ReadConfigFile].
Proof.
  intros E. unfold load_config. rewrite E.
  destruct (config_yaml p) as [ | | | | v]; cbv beta iota zeta;
    try reflexivity.
  destruct (if truthy v then v else VDict []) as [ | b | z | f | s | l | d];
    try reflexivity.
  destruct (merge_defaults _DEFAULT_CONFIG d) as [[[] | e] d']; reflexivity.
Qed.

Lemma configured_max_chars_caches (p p' : process) (m : value) (evs : list event) :
  configured_max_chars p = (Ok m, p', evs) ->
  exists c, load_config p = (Ok c, p', evs)
            /\ (forall q, _config q = Some c -> configured_max_chars q = (Ok m, q, [])).
Proof.
  unfold configured_max_chars, Config.get.
  destruct (load_config p) as [[[c | e] p0] evs0] eqn:L; [ | discriminate].
  destruct (value_get "optimization" (VDict []) c) as [section | e] eqn:G; [ | discriminate].
  intros [= Hm <- <-]. exists c. split; [reflexivity | ].
  intros q Hq. rewrite (load_config_cached q c Hq), G, Hm. reflexivity.
Qed.

Lemma configured_max_chars_events (p : process) :
  snd (configured_max_chars p) = snd (load_config p)
  /\ snd (fst (configured_max_chars p)) = snd (fst (load_config p)).
Proof.
  unfold configured_max_chars, Config.get.
  destruct (load_config p) as [[[c | e] p0] evs0]; [ | auto].
  destruct (value_get "optimization" (VDict []) c); auto.
Qed.

Lemma analyze_events (text : str) (has_media : bool) (p : process) :
  snd (analyze text has_media p) = snd (load_config p)
  /\ snd (fst (analyze text has_media p)) = snd (fst (load_config p)).
Proof.
  destruct (configured_max_chars_events p) as [H1 H2].
  unfold analyze. rewrite <- H1, <- H2.
  destruct (configured_max_chars p) as [[[m | e] p0] evs0]; [ | auto].
  destruct (utilization (List.length text) m); auto.
Qed.

End ConfigFacts.
Import ConfigFacts.
(** ** The claims about the scorer *)

Local Open Scope float_scope.

(** C1: the aggregator returns the weighted sum of the 19 catalog entries,
    each probability times the weight of the catalog table, doubled when
    that sum is negative and unchanged otherwise; it does not depend on the
    media flag and nothing else is applied to the value it returns (the
    score report then rounds that value to two decimals).  With
    report = 0.01 alone the sum is -92.09 and the score is twice that. *)
Theorem compute_weighted_score_rule (v : Dict.t float) (has_media : bool) :
  let p id := Dict.get id 0 v in
  let combined :=
    0 + p "favorite_score" * 1.0 + p "reply_score" * 27.0 + p "repost_score" * 10.0
      + p "photo_expand_score" * 0.3 + p "click_score" * 0.3
      + p "profile_click_score" * 2.0 + p "vqv_score" * 0.2 + p "share_score" * 1.0
      + p "share_via_dm_score" * 100.0 + p "share_via_copy_link_score" * 5.0
      + p "dwell_score" * 2.0 + p "quote_score" * 40.0 + p "quoted_click_score" * 0.5
      + p "follow_author_score" * 10.0 + p "dwell_time" * 0.8
      + p "not_interested_score" * -74.0 + p "block_author_score" * -371.0
      + p "mute_author_score" * -74.0 + p "report_score" * -9209.0 in
  List.length ACTIONS = 19%nat
  /\ weighted_sum v = combined
  /\ compute_weighted_score v has_media
     = (if combined <? 0 then combined * 2 else combined)
  /\ compute_weighted_score v has_media = compute_weighted_score v (negb has_media)
  /\ (forall a, weighted_score (full_score_report a has_media)
                = py_round (compute_weighted_score (score_tweet a) has_media) 2)
  /\ weighted_sum [("report_score", 0.01)] = -92.09
  /\ compute_weighted_score [("report_score", 0.01)] has_media = 2 * -92.09.
Proof.
  repeat split.
Qed.

(** C2: whatever the feature record, each of the 19 catalog ids has a value
    in the vector of the heuristic estimator, and that value lies in the
    closed interval from 0.0 to 1.0; the vector has these 19 entries and no
    other. *)
Theorem score_tweet_unit_interval (a : analysis) :
  Forall (fun id => exists v, Dict.lookup id (score_tweet a) = Some v
                              /\ (0 <=? v) = true /\ (v <=? 1) = true) ACTIONS
  /\ Forall (fun kv => (0 <=? snd kv) = true /\ (snd kv <=? 1) = true) (score_tweet a)
  /\ Dict.keys (score_tweet a) = score_keys
  /\ List.length score_keys = 19%nat.
Proof.
  split; [ | split; [apply score_tweet_values | split; reflexivity]].
  rewrite Forall_forall. intros id Hin.
  assert (Hk : exists v, Dict.lookup id (score_tweet a) = Some v).
  { cbn in Hin.
    repeat (destruct Hin as [<- | Hin]; [eexists; reflexivity | ]).
    contradiction. }
  destruct Hk as [v Hv]. exists v. split; [exact Hv | ].
  pose proof (get_score_in_unit a id) as H. unfold Dict.get in H.
  now rewrite Hv in H.
Qed.

(** C3 (as amended): for every catalog id the entry of [compute_delta]
    holds the two probabilities as given and obeys the three-branch rule:
    when the original is 0 and the candidate is above 0, delta_pct is 100.0
    and is_new is true; when the original is 0 and the candidate is 0 (or
    anything else that is not above 0), delta_pct is 0.0 and is_new is
    false; otherwise is_new is false and delta_pct is
    (cand - orig) / orig * 100 rounded to one decimal place. *)
Theorem compute_delta_three_branches
    (orig_scores opt_scores : Dict.t float) (action : string) :
  In action ACTIONS ->
  let orig := Dict.get action 0 orig_scores in
  let cand := Dict.get action 0 opt_scores in
  exists d,
    Dict.lookup action (compute_delta orig_scores opt_scores) = Some d
    /\ original d = orig /\ optimized d = cand
    /\ ((orig =? 0) = true -> (0 <? cand) = true ->
        delta_pct d = 100 /\ is_new d = true)
    /\ ((orig =? 0) = true -> (cand =? 0) = true \/ (0 <? cand) = false ->
        delta_pct d = 0 /\ is_new d = false)
    /\ ((orig =? 0) = false ->
        delta_pct d = py_round ((cand - orig) / orig * 100) 1 /\ is_new d = false).
Proof.
  intros Hin orig cand. eexists. split; [now apply compute_delta_lookup | ].
  fold orig cand. unfold delta_of, raw_delta_pct, gtb; cbn [original optimized delta_pct is_new].
  split; [reflexivity | ]. split; [reflexivity | ]. split; [ | split].
  - intros -> ->. split; reflexivity.
  - intros -> Hc.
    assert (Hnot : (0 <? cand) = false).
    { destruct Hc as [Hz | Hn]; [apply (eqb_zero_no_sign cand Hz) | exact Hn]. }
    rewrite Hnot. split; reflexivity.
  - intros ->. split; reflexivity.
Qed.

Lemma compute_delta_three_branches_witness :
  In "reply_score" ACTIONS
  /\ exists d,
       Dict.lookup "reply_score"
         (compute_delta [("reply_score", 0.0)] [("reply_score", 0.3)]) = Some d
       /\ original d = 0.0 /\ optimized d = 0.3
       /\ delta_pct d = 100 /\ is_new d = true.
Proof.
  split.
  - simpl; tauto.
  - destruct (compute_delta_three_branches
                [("reply_score", 0.0)] [("reply_score", 0.3)] "reply_score")
      as (d & Hd & Ho & Hc & Hnew & _).
    + simpl; tauto.
    + exists d. repeat split; try assumption; now apply Hnew.
Defined.

(** C3 as stated fails in its third branch: from 0.3 to 0.4 the change is
    33.33333333333335 percent, and the reported delta_pct is 33.3. *)
Lemma compute_delta_third_branch_is_rounded :
  exists d,
    Dict.lookup "favorite_score"
      (compute_delta [("favorite_score", 0.3)] [("favorite_score", 0.4)]) = Some d
    /\ (0.3 =? 0) = false
    /\ (delta_pct d =? (0.4 - 0.3) / 0.3 * 100) = false
    /\ delta_pct d = 33.3
    /\ (0.4 - 0.3) / 0.3 * 100 = 33.33333333333335.
Proof.
  eexists. split; [reflexivity | ]. repeat split.
Qed.

(** C4: for every catalog id the direction label follows the sign of the
    percentage change: on a positive-polarity signal it is "improved" when
    the change is above 0 and "worse" otherwise; on a negative-polarity
    signal it is "improved" when the change is below 0 and "worse"
    otherwise; a change equal to 0 is never labelled "improved". *)
Theorem direction_rule
    (orig_scores opt_scores : Dict.t float) (action : string) :
  In action ACTIONS ->
  let change :=
    raw_delta_pct (Dict.get action 0 orig_scores) (Dict.get action 0 opt_scores) in
  exists d,
    Dict.lookup action (compute_delta orig_scores opt_scores) = Some d
    /\ (direction d = "improved" \/ direction d = "worse")
    /\ (is_negative_action action = false ->
        (direction d = "improved" <-> (0 <? change) = true))
    /\ (is_negative_action action = true ->
        (direction d = "improved" <-> (change <? 0) = true))
    /\ ((change =? 0) = true -> direction d = "worse").
Proof.
  intros Hin change. eexists. split; [now apply compute_delta_lookup | ].
  unfold delta_of, gtb; cbn [direction]. fold change.
  split; [ | split; [ | split]].
  - destruct (is_negative_action action), (change <? 0), (0 <? change); auto.
  - intros ->. destruct (0 <? change); split; congruence.
  - intros ->. destruct (change <? 0); split; congruence.
  - intros Hz. destruct (eqb_zero_no_sign change Hz) as [-> ->].
    now destruct (is_negative_action action).
Qed.

Lemma direction_rule_witness :
  In "report_score" ACTIONS
  /\ let change := raw_delta_pct 0.20 0.05 in
     exists d,
       Dict.lookup "report_score"
         (compute_delta [("report_score", 0.20)] [("report_score", 0.05)]) = Some d
       /\ (direction d = "improved" \/ direction d = "worse")
       /\ (is_negative_action "report_score" = false ->
           (direction d = "improved" <-> (0 <? change) = true))
       /\ (is_negative_action "report_score" = true ->
           (direction d = "improved" <-> (change <? 0) = true))
       /\ ((change =? 0) = true -> direction d = "worse").
Proof.
  split.
  - simpl; tauto.
  - apply (direction_rule [("report_score", 0.20)] [("report_score", 0.05)] "report_score").
    simpl; tauto.
Defined.

(** C5: comparing a feature record with its own heuristic estimate gives,
    for each of the 19 signals, a delta_pct of 0.0 and is_new false. *)
Theorem self_comparison_has_no_change (a : analysis) (has_media : bool) :
  Forall (fun id =>
            exists d,
              Dict.lookup id
                (delta_report (comparison_report a (score_tweet a) has_media)) = Some d
              /\ delta_pct d = 0 /\ is_new d = false)
         ACTIONS.
Proof.
  rewrite Forall_forall. intros id Hin. eexists.
  split.
  - cbn [comparison_report delta_report full_score_report signals].
    now apply compute_delta_lookup.
  - apply delta_of_self, get_score_in_unit.
Qed.

(** C10: in every entry, delta_pct is the percentage change rounded to one
    decimal while the direction is taken from the change before rounding;
    from 0.5 to 0.5001 on the positive-polarity favorite signal the change
    is above 0 and below 0.05, so the entry has delta_pct 0.0 together
    with the direction "improved". *)
Theorem rounded_delta_with_unrounded_direction :
  (forall orig_scores opt_scores : Dict.t float,
      Forall (fun action =>
                let change := raw_delta_pct (Dict.get action 0 orig_scores)
                                            (Dict.get action 0 opt_scores) in
                exists d,
                  Dict.lookup action (compute_delta orig_scores opt_scores) = Some d
                  /\ delta_pct d = py_round change 1
                  /\ direction d
                     = if is_negative_action action
                       then (if change <? 0 then "improved" else "worse")
                       else (if 0 <? change then "improved" else "worse"))
             ACTIONS)
  /\ (exists d,
         Dict.lookup "favorite_score"
           (compute_delta [("favorite_score", 0.5)] [("favorite_score", 0.5001)]) = Some d
         /\ is_negative_action "favorite_score" = false
         /\ (0 <? raw_delta_pct 0.5 0.5001) = true
         /\ (raw_delta_pct 0.5 0.5001 <? 0.05) = true
         /\ delta_pct d = 0.0
         /\ direction d = "improved").
Proof.
  split.
  - intros orig_scores opt_scores. rewrite Forall_forall. intros action Hin change.
    eexists. split; [now apply compute_delta_lookup | ]. split; reflexivity.
  - eexists. split; [reflexivity | ]. repeat split.
Qed.

(** ** The claims about the feature extractor *)

(** C6 (as amended): with a configured maximum of 280 characters and no
    media, the example text is analysed as English, with a hook, with a
    question and a question count of 1, without a call to action and
    without list format; its lower-cased text contains the power word
    "thread", so the reply estimate is the base 0.10 plus the question
    bonus 0.15 plus the power-word bonus 0.08, that is 0.33. *)
Theorem end_to_end_example (p p' : Config.process) (evs : list event) :
  configured_max_chars p = (Ok (Config.VInt 280), p', evs) ->
  exists a,
    analyze example_text false p = (Ok a, p', evs)
    /\ lang a = "en" /\ has_hook a = true
    /\ has_question a = true /\ question_count a = 1%nat
    /\ has_cta a = false /\ has_list_format a = false
    /\ power_words_found a = [lit "thread"]
    /\ Dict.lookup "reply_score" (score_tweet a) = Some 0.33
    /\ 0.10 + 0.15 * float_of_nat 1 + 0.08 = 0.33.
Proof.
  intros H. unfold analyze. rewrite H. cbn [utilization].
  eexists. split; [reflexivity | ].
  repeat split; vm_compute; reflexivity.
Qed.

Lemma end_to_end_example_witness :
  configured_max_chars fresh_process
  = (Ok (Config.VInt 280), loaded_process, [ReadConfigFile])
  /\ exists a,
       analyze example_text false fresh_process
       = (Ok a, loaded_process, [ReadConfigFile])
       /\ lang a = "en" /\ has_hook a = true
       /\ has_question a = true /\ question_count a = 1%nat
       /\ has_cta a = false /\ has_list_format a = false
       /\ power_words_found a = [lit "thread"]
       /\ Dict.lookup "reply_score" (score_tweet a) = Some 0.33
       /\ 0.10 + 0.15 * float_of_nat 1 + 0.08 = 0.33.
Proof.
  split.
  - reflexivity.
  - apply (end_to_end_example fresh_process loaded_process [ReadConfigFile]).
    reflexivity.
Defined.

(** C6 as stated fails on the reply estimate: in a process whose
    configured maximum is the default 280, the analysis of the example
    text has a reply score that is not 0.25. *)
Lemma example_reply_score_is_not_a_quarter :
  configured_max_chars fresh_process
  = (Ok (Config.VInt 280), loaded_process, [ReadConfigFile])
  /\ exists a r,
       analyze example_text false fresh_process
       = (Ok a, loaded_process, [ReadConfigFile])
       /\ Dict.lookup "reply_score" (score_tweet a) = Some r
       /\ (r =? 0.25) = false.
Proof.
  split; [reflexivity | ].
  eexists. eexists. split; [reflexivity | ]. split; reflexivity.
Qed.

(** C8 (as amended): called with empty or whitespace-only text, the
    extractor does not reject it: whenever the configured maximum can be
    read and divided by, it returns a fully populated record, with no
    lines, no words, an empty first line, a hook, and every other count at
    zero; it raises only what reading the configuration or the division
    raises.  Empty text is rejected by the caller alone. *)
Theorem analyze_accepts_blank_text
    (text : str) (has_media : bool) (p : Config.process) :
  blank text = true ->
  analyze text has_media p
  = match configured_max_chars p with
    | (Ok maxChars, p', evs) =>
        match utilization (List.length text) maxChars with
        | Ok ratio =>
            (Ok (blank_analysis (List.length text) has_media ratio), p', evs)
        | Raise e => (Raise e, p', evs)
        end
    | (Raise e, p', evs) => (Raise e, p', evs)
    end.
Proof.
  intros Hb. unfold analyze.
  destruct (configured_max_chars p) as [[[m | e] p'] evs]; [ | reflexivity].
  destruct (utilization (List.length text) m) as [ratio | e]; [ | reflexivity].
  now rewrite features_blank.
Qed.

Lemma analyze_accepts_blank_text_witness :
  blank (lit "   ") = true
  /\ analyze (lit "   ") false fresh_process
     = (Ok (blank_analysis 3 false (int_truediv 3 280 * 100)),
        loaded_process, [ReadConfigFile]).
Proof.
  split.
  - reflexivity.
  - exact (analyze_accepts_blank_text (lit "   ") false fresh_process eq_refl).
Defined.

(** C8 as stated fails: on the empty text and on three spaces the
    extractor returns a record and raises nothing. *)
Lemma analyze_returns_on_empty_text :
  (exists a p' evs, analyze [] false fresh_process = (Ok a, p', evs)
                    /\ char_count a = 0%nat /\ line_count a = 0%nat
                    /\ has_hook a = true)
  /\ (exists a p' evs, analyze (lit "   ") false fresh_process = (Ok a, p', evs)
                       /\ char_count a = 3%nat /\ char_utilization a = 1.1).
Proof.
  split; do 3 eexists; (split; [reflexivity | ]); repeat split.
Qed.

(** C9 (as amended): feature extraction is deterministic in the text, the
    media flag and the configured maximum: a call that returns a record
    returns the same record in any process whose configuration resolves to
    the same maximum, and again on every later call of the same process,
    whatever has become of config.yaml meanwhile.  It performs no input or
    output once the configuration is cached; the call that finds the cache
    empty reads config.yaml. *)
Theorem analyze_deterministic
    (text : str) (has_media : bool) (p p' : Config.process)
    (a : analysis) (evs : list event) :
  analyze text has_media p = (Ok a, p', evs) ->
  (forall q, fst (fst (configured_max_chars q)) = fst (fst (configured_max_chars p)) ->
             fst (fst (analyze text has_media q)) = Ok a)
  /\ (forall file,
        let later := {| Config._config := Config._config p'; Config.config_yaml := file |} in
        analyze text has_media later = (Ok a, later, []))
  /\ (Config._config p <> None -> evs = [] /\ p' = p)
  /\ (Config._config p = None -> evs = [ReadConfigFile]).
Proof.
  intros H. split; [ | split; [ | split]].
  - intros q Hq. unfold analyze in H |- *.
    destruct (configured_max_chars p) as [[[m | e] p0] evs0]; [ | discriminate].
    destruct (configured_max_chars q) as [[[m' | e'] q0] evs1]; cbn in Hq;
      [ | discriminate].
    injection Hq as ->.
    destruct (utilization (List.length text) m) as [ratio | e]; [ | discriminate].
    now injection H as <- _ _.
  - intros file later. unfold analyze in H |- *.
    destruct (configured_max_chars p) as [[[m | e] p0] evs0] eqn:C; [ | discriminate].
    destruct (configured_max_chars_caches p p0 m evs0 C) as (c & L & Hc).
    destruct (load_config_caches p p0 c evs0 L) as [Hcache _].
    destruct (utilization (List.length text) m) as [ratio | e] eqn:U; [ | discriminate].
    injection H as <- <- <-.
    rewrite (Hc later Hcache), U. reflexivity.
  - intros Hne. destruct (Config._config p) as [c | ] eqn:E; [ | contradiction].
    destruct (analyze_events text has_media p) as [H1 H2].
    rewrite (load_config_cached p c E), H in H1, H2. cbn in H1, H2. auto.
  - intros E. destruct (analyze_events text has_media p) as [H1 _].
    rewrite (load_config_reads p E), H in H1. exact H1.
Qed.

Lemma analyze_deterministic_witness :
  analyze example_text false fresh_process
  = (Ok (features example_text false (int_truediv 41 280 * 100)),
     loaded_process, [ReadConfigFile])
  /\ analyze example_text false
       {| Config._config := Config._config loaded_process;
          Config.config_yaml := Config.Parsed Config.VNone |}
     = (Ok (features example_text false (int_truediv 41 280 * 100)),
        {| Config._config := Config._config loaded_process;
           Config.config_yaml := Config.Parsed Config.VNone |}, []).
Proof.
  split.
  - reflexivity.
  - exact (proj1 (proj2 (analyze_deterministic example_text false fresh_process
                           loaded_process _ [ReadConfigFile] eq_refl))
             (Config.Parsed Config.VNone)).
Defined.

(** C9 as stated fails on its last part: the first extraction of a process
    opens and reads config.yaml. *)
Lemma first_analyze_reads_config_file :
  snd (analyze example_text false fresh_process) = [ReadConfigFile]
  /\ snd (analyze example_text false fresh_process) <> [].
Proof.
  split; [reflexivity | discriminate].
Qed.

(** ** Validation of an externally supplied vector *)

Module OptimizerFacts.

Lemma lookup_setdefault_other {V} (k k' : string) (v : V) (d : Dict.t V) :
  k <> k' -> Dict.lookup k (Dict.setdefault k' v d) = Dict.lookup k d.
Proof.
  intros Hne. unfold Dict.setdefault. destruct (Dict.mem k' d); [reflexivity | ].
  now apply lookup_set_neq.
Qed.

Lemma fill_keeps (s : Dict.t jvalue) (k : string) (val : jvalue) :
  Dict.lookup k s = Some val -> Dict.lookup k (fill_missing_scores s) = Some val.
Proof.
  unfold fill_missing_scores. generalize ACTIONS as l. intros l. revert s.
  induction l as [ | a l IH]; intros s H; cbn; [exact H | ].
  apply IH. now apply lookup_setdefault_present.
Qed.

Lemma fill_defaults (s : Dict.t jvalue) (id : string) :
  In id ACTIONS -> Dict.lookup id s = None ->
  Dict.lookup id (fill_missing_scores s) = Some (JFloat 0.0).
Proof.
  unfold fill_missing_scores. generalize ACTIONS as l. intros l. revert s.
  induction l as [ | a l IH]; intros s Hin Hnone; cbn; [contradiction | ].
  destruct (string_dec id a) as [-> | Hne].
  - change (Dict.lookup a
              (fold_left (fun s0 action => Dict.setdefault action (JFloat 0.0) s0) l
                 (Dict.setdefault a (JFloat 0.0) s)) = Some (JFloat 0.0)).
    clear IH Hin. pose proof (lookup_setdefault_absent a (JFloat 0.0) s Hnone) as H.
    revert H. generalize (Dict.setdefault a (JFloat 0.0) s) as s1.
    induction l as [ | b l IHl]; intros s1 H; cbn; [exact H | ].
    apply IHl. now apply lookup_setdefault_present.
  - destruct Hin as [-> | Hin]; [contradiction | ].
    apply IH; [assumption | ]. now rewrite lookup_setdefault_other.
Qed.



Lemma validate_variation_value (var : variation) (s : Dict.t jvalue) (max_chars : Z)
    (action : string) (val : jvalue) (w : warning) :
  scores var = Some s -> In (action, val) (Dict.items s) ->
  In w (score_warnings (action, val)) ->
  In w (validate_variation var max_chars).
Proof.
  intros Hs Hin Hw. unfold validate_variation. rewrite Hs.
  apply in_or_app. right. apply in_flat_map. exists (action, val). auto.
Qed.

(** The arithmetic raises nothing but these two exceptions. *)
Lemma as_float_error (val : jvalue) (e : exn) :
  as_float val = Raise e -> e = TypeError \/ e = OverflowError.
Proof.
  destruct val as [ | b | z | f | t | | ]; cbn [as_float]; try discriminate;
    try (intros [= <-]; now left).
  destruct (is_infinity (float_of_Z z)); [ | discriminate].
  intros [= <-]. now right.
Qed.

Lemma as_float_not_number (val : jvalue) :
  is_number val = false -> as_float val = Raise TypeError.
Proof. destruct val; try discriminate; reflexivity. Qed.





Lemma weighted_sum_from_raises (l : list string) (s : Dict.t jvalue) (acc : float)
    (id : string) (e : exn) :
  In id l -> as_float (Dict.get id (JFloat 0.0) s) = Raise e ->
  exists e', Supplied.weighted_sum_from l s acc = Raise e'
             /\ (e' = TypeError \/ e' = OverflowError).
Proof.
  revert acc. induction l as [ | a l IH]; intros acc Hin Hbad; [contradiction | ].
  cbn [Supplied.weighted_sum_from].
  destruct (as_float (Dict.get a (JFloat 0.0) s)) as [f | e0] eqn:E.
  - destruct Hin as [-> | Hin]; [congruence | ]. now apply IH.
  - exists e0. split; [reflexivity | ]. exact (as_float_error _ _ E).
Qed.





(** The comparison raises when a catalog id holds a value the arithmetic
    does not read. *)
Lemma compare_variation_raises (a : analysis) (t : option str) (s : Dict.t jvalue)
    (has_media : bool) (id : string) (e : exn) :
  In id ACTIONS -> as_float (Dict.get id (JFloat 0.0) s) = Raise e ->
  exists e', compare_variation a {| tweet := t; scores := Some s |} has_media = Raise e'
             /\ (e' = TypeError \/ e' = OverflowError).
Proof.
  intros Hin Hbad.
  unfold compare_variation, Supplied.comparison_report, Supplied.compute_weighted_score.
  cbn [scores]. cbv zeta.
  destruct (weighted_sum_from_raises ACTIONS s 0 id e Hin Hbad) as (e' & -> & He').
  eauto.
Qed.

End OptimizerFacts.
Import OptimizerFacts.




(** * Further properties of the code *)

(** ** Strings *)

Module TextFacts.

Lemma lstrip_head (s : str) (c : char) (r : str) :
  lstrip s = c :: r -> is_space c = false.
Proof.
  induction s as [ | a s IH]; cbn; [discriminate | ].
  destruct (is_space a) eqn:E; [exact IH | ].
  now intros [= <- _].
Qed.

(** [lstrip] removes a blank prefix. *)
Lemma lstrip_split (s : str) : exists w, s = (w ++ lstrip s)%list /\ blank w = true.
Proof.
  induction s as [ | a s (w & Hw & Hb)]; [now exists [] | ].
  cbn. destruct (is_space a) eqn:E.
  - exists (a :: w). split.
    + cbn. now rewrite <- Hw.
    + unfold blank in *. cbn. now rewrite E.
  - now exists [].
Qed.

Lemma lstrip_length (s : str) : (List.length (lstrip s) <= List.length s)%nat.
Proof.
  destruct (lstrip_split s) as (w & Hw & _).
  rewrite Hw at 2. rewrite length_app. lia.
Qed.

Lemma strip_length (s : str) : (List.length (strip s) <= List.length s)%nat.
Proof.
  unfold strip, rstrip. rewrite length_rev.
  pose proof (lstrip_length (rev (lstrip s))) as H. rewrite length_rev in H.
  pose proof (lstrip_length s). lia.
Qed.

Lemma blank_app (a b : str) : blank (a ++ b) = blank a && blank b.
Proof. unfold blank. apply forallb_app. Qed.

Lemma blank_rev (s : str) : blank (rev s) = blank s.
Proof.
  induction s as [ | a s IH]; [reflexivity | ].
  cbn [rev]. rewrite blank_app, IH. unfold blank; cbn.
  rewrite andb_true_r. apply andb_comm.
Qed.

Lemma lstrip_nil (s : str) : lstrip s = [] -> blank s = true.
Proof.
  intros H. destruct (lstrip_split s) as (w & Hw & Hb).
  rewrite H, app_nil_r in Hw. now subst.
Qed.

(** [strip] gives the empty string exactly on blank text. *)
Lemma strip_nil_iff (s : str) : strip s = [] <-> blank s = true.
Proof.
  split; [ | apply strip_blank].
  unfold strip, rstrip. intros H.
  apply (f_equal (@rev N)) in H. rewrite rev_involutive in H. cbn in H.
  apply lstrip_nil in H. rewrite blank_rev in H.
  destruct (lstrip s) as [ | c r] eqn:E; [now apply lstrip_nil | ].
  apply lstrip_head in E. apply blank_cons in H as [Hc _]. congruence.
Qed.

(** What [strip] returns neither starts nor ends with whitespace. *)
Lemma strip_trimmed (s : str) (c : char) (r : str) :
  strip s = c :: r ->
  is_space c = false /\ is_space (last (c :: r) c) = false.
Proof.
  unfold strip, rstrip. intros H.
  destruct (lstrip (rev (lstrip s))) as [ | d u] eqn:E; [discriminate | ].
  pose proof (lstrip_head _ _ _ E) as Hd.
  destruct (lstrip_split (rev (lstrip s))) as (w & Hw & Hb). rewrite E in Hw.
  split.
  - (* the head of the result is the head of [lstrip s] *)
    apply (f_equal (@rev N)) in Hw. rewrite rev_involutive, rev_app_distr in Hw.
    rewrite H in Hw.
    destruct (lstrip s) as [ | c0 r0] eqn:E0; [discriminate | ].
    cbn in Hw. injection Hw as <- _. exact (lstrip_head _ _ _ E0).
  - rewrite <- H. cbn [rev].
    rewrite last_last. exact Hd.
Qed.

(** A string without the separator is the only piece of its split. *)
Lemma split_on_none (sep : char) (s : str) :
  forallb (fun c => negb (N.eqb c sep)) s = true -> split_on sep s = [s].
Proof.
  induction s as [ | a s IH]; [reflexivity | ].
  cbn. intros H. apply andb_true_iff in H as [Ha Hs].
  apply negb_true_iff in Ha. now rewrite Ha, IH.
Qed.

Lemma split_on_cons (sep : char) (s : str) : exists h t, split_on sep s = h :: t.
Proof.
  destruct s as [ | c s]; cbn; [eauto | ].
  destruct (N.eqb c sep); [eauto | ].
  destruct (split_on sep s); eauto.
Qed.

(** Splitting at each separator, piece by piece. *)
Lemma split_on_app (sep : char) (a b : str) :
  split_on sep (a ++ sep :: b) = (split_on sep a ++ split_on sep b)%list.
Proof.
  induction a as [ | x a IH]; cbn.
  - now rewrite N.eqb_refl.
  - destruct (N.eqb x sep); [now rewrite IH | ].
    rewrite IH. destruct (split_on_cons sep a) as (h & t & ->). reflexivity.
Qed.

Lemma join_lines_cons (l h : str) (t : list str) :
  join_lines (l :: h :: t) = (l ++ 10%N :: join_lines (h :: t))%list.
Proof. reflexivity. Qed.

(** Joining the pieces of a split gives the string back. *)
Lemma join_split (s : str) : join_lines (split_on 10 s) = s.
Proof.
  induction s as [ | c s IH]; [reflexivity | ].
  cbn [split_on]. destruct (split_on_cons 10 s) as (h & t & E). rewrite E in *.
  destruct (N.eqb c 10) eqn:Ec.
  - apply N.eqb_eq in Ec. subst c. rewrite join_lines_cons, IH. reflexivity.
  - destruct t as [ | l t].
    + cbn in IH |- *. now rewrite IH.
    + rewrite join_lines_cons in IH |- *. cbn [app]. now rewrite IH.
Qed.

(** A piece of a split is no longer than the string. *)
Lemma split_on_length (sep : char) (s : str) (l : str) :
  In l (split_on sep s) -> (List.length l <= List.length s)%nat.
Proof.
  revert l. induction s as [ | c s IH]; intros l; cbn.
  - intros [<- | []]. reflexivity.
  - destruct (N.eqb c sep).
    + intros [<- | Hin]; cbn; [lia | ]. specialize (IH l Hin). lia.
    + destruct (split_on_cons sep s) as (h & t & E). rewrite E in *.
      intros [<- | Hin]; cbn.
      * specialize (IH h (or_introl eq_refl)). lia.
      * specialize (IH l (or_intror Hin)). lia.
Qed.

(** Text that is not blank has a word. *)
Lemma split_ws_nil (s : str) : split_ws s = [] -> blank s = true.
Proof.
  induction s as [ | c s IH]; [reflexivity | ].
  cbn [split_ws]. unfold blank; cbn [forallb]. destruct (is_space c); cbn.
  - exact IH.
  - destruct s as [ | c' s']; [discriminate | ].
    destruct (is_space c'); [discriminate | ].
    destruct (split_ws (c' :: s')); discriminate.
Qed.

End TextFacts.
Import TextFacts.

(** ** The feature extractor *)

Module ExtractorFacts.

(** The lines of a text that is not blank: the first one starts with the
    first character that is not whitespace. *)
Lemma lines_of_text (text : str) :
  blank text = false ->
  exists l ls,
    filter (fun l => nonempty (strip l)) (split_on 10 (strip text)) = l :: ls
    /\ nonempty (strip l) = true.
Proof.
  intros Hb.
  destruct (strip text) as [ | c r] eqn:E.
  { apply strip_nil_iff in E. congruence. }
  destruct (strip_trimmed text c r E) as [Hc _].
  assert (Hsep : N.eqb c 10 = false).
  { destruct (N.eqb c 10) eqn:E10; [ | reflexivity].
    apply N.eqb_eq in E10. subst c. discriminate Hc. }
  cbn [split_on]. rewrite Hsep.
  destruct (split_on_cons 10 r) as (h & t & ->).
  assert (Hne : nonempty (strip (c :: h)) = true).
  { destruct (strip (c :: h)) eqn:Es; [ | reflexivity].
    apply strip_nil_iff, blank_cons in Es as [Hc' _]. congruence. }
  cbn [filter]. rewrite Hne. eauto.
Qed.

Lemma hashtags_shape (s : str) (cur : option str) :
  (forall w, cur = Some w -> forallb is_word w = true) ->
  Forall (fun h => exists w, h = 35%N :: w /\ w <> [] /\ forallb is_word w = true)
         (findall_hashtags_from cur s).
Proof.
  assert (Hemit : forall w, forallb is_word w = true ->
            Forall (fun h => exists w, h = 35%N :: w /\ w <> [] /\ forallb is_word w = true)
                   match w with [] => [] | _ :: _ => [35%N :: rev w] end).
  { intros [ | a w] Hw; constructor; [ | constructor].
    exists (rev (a :: w)). split; [reflexivity | ]. split.
    - cbn. intros H. now apply app_eq_nil in H as [_ H].
    - rewrite forallb_forall in *. intros x Hx. apply Hw. now apply in_rev. }
  revert cur. induction s as [ | c s IH]; intros cur Hcur; cbn.
  - destruct cur as [w | ]; [apply Hemit; auto | constructor].
  - destruct cur as [w | ].
    + destruct (is_word c) eqn:Ec.
      * apply IH. intros w' [= <-]. cbn. now rewrite Ec, Hcur.
      * apply Forall_app. split; [apply Hemit; auto | ].
        apply IH. destruct (N.eqb c 35); [now intros w' [= <-] | discriminate].
    + apply IH. destruct (N.eqb c 35); [now intros w' [= <-] | discriminate].
Qed.

Lemma filter_length_le {A} (f : A -> bool) (l : list A) :
  (List.length (filter f l) <= List.length l)%nat.
Proof.
  induction l as [ | a l IH]; cbn; [lia | ]. destruct (f a); cbn; lia.
Qed.

Lemma detect_language_values (text : str) :
  detect_language text = "tr" \/ detect_language text = "en".
Proof.
  unfold detect_language.
  destruct (existsb _ text); [now left | ].
  destruct (3 <=? _)%nat; auto.
Qed.

End ExtractorFacts.
Import ExtractorFacts.

Module ExtractorMore.

(** A record that [analyze] returns is the one built from the text. *)
Lemma analyze_ok (text : str) (has_media : bool) (p p' : Config.process)
    (a : analysis) (evs : list event) :
  analyze text has_media p = (Ok a, p', evs) ->
  exists ratio, a = features text has_media ratio.
Proof.
  unfold analyze.
  destruct (configured_max_chars p) as [[[m | e] p0] evs0]; [ | discriminate].
  destruct (utilization (List.length text) m) as [ratio | e]; [ | discriminate].
  intros [= <- _ _]. eauto.
Qed.

Lemma count_char_cons (x c : char) (s : str) :
  count_char x (c :: s) = ((if N.eqb c x then 1 else 0) + count_char x s)%nat.
Proof.
  unfold count_char. cbn [filter]. rewrite (N.eqb_sym x c).
  now destruct (N.eqb c x).
Qed.

Lemma hashtags_count (s : str) (cur : option str) :
  (List.length (findall_hashtags_from cur s)
   <= (match cur with Some _ => 1 | None => 0 end) + count_char 35 s)%nat.
Proof.
  revert cur. induction s as [ | c s IH]; intros cur.
  - destruct cur as [[ | a w] | ]; cbn; lia.
  - rewrite count_char_cons. cbn [findall_hashtags_from].
    destruct cur as [w | ].
    + destruct (is_word c) eqn:Ew.
      * assert (N.eqb c 35 = false) as ->.
        { destruct (N.eqb c 35) eqn:E; [ | reflexivity].
          apply N.eqb_eq in E. subst c. discriminate Ew. }
        apply (IH (Some (c :: w))).
      * rewrite length_app.
        specialize (IH (if N.eqb c 35 then Some [] else None)).
        destruct (N.eqb c 35); destruct w; cbn [List.length] in *; lia.
    + specialize (IH (if N.eqb c 35 then Some [] else None)).
      destruct (N.eqb c 35); lia.
Qed.

Lemma catalogs_have_no_repeats :
  NoDup _POWER_WORDS_EN /\ NoDup _POWER_WORDS_TR.
Proof.
  split.
  - assert (E : nodup (list_eq_dec N.eq_dec) _POWER_WORDS_EN = _POWER_WORDS_EN)
      by (vm_compute; reflexivity).
    rewrite <- E. apply NoDup_nodup.
  - assert (E : nodup (list_eq_dec N.eq_dec) _POWER_WORDS_TR = _POWER_WORDS_TR)
      by (vm_compute; reflexivity).
    rewrite <- E. apply NoDup_nodup.
Qed.

End ExtractorMore.
Import ExtractorMore.

(** X1: every hashtag the extractor reports is a "#" followed by one or
    more word characters, and there are no more hashtags than "#"
    characters in the text. *)
Theorem hashtags_are_well_formed
    (text : str) (has_media : bool) (p p' : Config.process)
    (a : analysis) (evs : list event) :
  analyze text has_media p = (Ok a, p', evs) ->
  Forall (fun h => exists w, h = 35%N :: w /\ w <> [] /\ forallb is_word w = true)
         (hashtags a)
  /\ hashtag_count a = List.length (hashtags a)
  /\ (hashtag_count a <= count_char 35 text)%nat.
Proof.
  intros H. destruct (analyze_ok _ _ _ _ _ _ H) as [ratio ->].
  cbn [features hashtags hashtag_count].
  split; [ | split; [reflexivity | ]].
  - apply hashtags_shape. discriminate.
  - apply (hashtags_count text None).
Qed.

Lemma hashtags_are_well_formed_witness :
  analyze (lit "#ai beats ##ml# #x_1!") false fresh_process
  = (Ok (features (lit "#ai beats ##ml# #x_1!") false (int_truediv 21 280 * 100)),
     loaded_process, [ReadConfigFile])
  /\ hashtags (features (lit "#ai beats ##ml# #x_1!") false (int_truediv 21 280 * 100))
     = [lit "#ai"; lit "#ml"; lit "#x_1"]
  /\ (3 <= count_char 35 (lit "#ai beats ##ml# #x_1!"))%nat.
Proof.
  split; [reflexivity | ]. split; [reflexivity | ].
  pose proof (hashtags_are_well_formed (lit "#ai beats ##ml# #x_1!") false
                fresh_process loaded_process _ [ReadConfigFile] eq_refl) as (_ & _ & H).
  exact H.
Defined.

(** X2: the counts of a record agree with what was found and are bounded
    by the catalogs: the power words found are distinct entries of the
    catalog of the detected language, each occurring in the lower-cased
    text, so their count is at most 21; at most 15 call-to-action patterns
    match; has_cta and has_question hold exactly when their counts are
    positive; no count of characters exceeds char_count. *)
Theorem analysis_counts_are_consistent
    (text : str) (has_media : bool) (p p' : Config.process)
    (a : analysis) (evs : list event) :
  analyze text has_media p = (Ok a, p', evs) ->
  char_count a = List.length text
  /\ power_word_count a = List.length (power_words_found a)
  /\ NoDup (power_words_found a)
  /\ (forall w, In w (power_words_found a) ->
        In w (if String.eqb (lang a) "tr" then _POWER_WORDS_TR else _POWER_WORDS_EN)
        /\ contains w (Text.lower text) = true)
  /\ (power_word_count a <= 21)%nat
  /\ (cta_count a <= 15)%nat
  /\ (has_cta a = true <-> (0 < cta_count a)%nat)
  /\ (has_question a = true <-> (0 < question_count a)%nat)
  /\ (question_count a <= char_count a)%nat
  /\ (emoji_count a <= char_count a)%nat.
Proof.
  intros H. destruct (analyze_ok _ _ _ _ _ _ H) as [ratio ->].
  cbn [features char_count power_word_count power_words_found lang cta_count has_cta
       has_question question_count emoji_count].
  destruct catalogs_have_no_repeats as [Hen Htr].
  split; [reflexivity | ]. split; [reflexivity | ].
  split; [destruct (String.eqb (detect_language text) "tr"); now apply NoDup_filter | ].
  split; [intros w Hw; apply filter_In in Hw; exact Hw | ].
  split; [ | split].
  1-2: destruct (String.eqb (detect_language text) "tr");
       (eapply Nat.le_trans; [apply filter_length_le | cbn; lia]).
  split; [apply Nat.ltb_lt | ]. split; [apply Nat.ltb_lt | ].
  split; apply filter_length_le.
Qed.

Lemma analysis_counts_are_consistent_witness :
  analyze example_text false fresh_process
  = (Ok (features example_text false (int_truediv 41 280 * 100)),
     loaded_process, [ReadConfigFile])
  /\ power_words_found (features example_text false (int_truediv 41 280 * 100))
     = [lit "thread"]
  /\ NoDup (power_words_found (features example_text false (int_truediv 41 280 * 100))).
Proof.
  split; [reflexivity | ]. split; [reflexivity | ].
  exact (proj1 (proj2 (proj2
           (analysis_counts_are_consistent example_text false fresh_process
              loaded_process _ [ReadConfigFile] eq_refl)))).
Defined.

(** X3: a text that [main] lets through is not blank, and its record has
    at least one line and one word, and a first line that is not empty
    and neither starts nor ends with whitespace. *)
Theorem accepted_text_has_a_first_line
    (text : str) (has_media : bool) (p p' : Config.process)
    (a : analysis) (evs : list event) :
  Cli.accepts text = true ->
  analyze text has_media p = (Ok a, p', evs) ->
  blank text = false
  /\ (1 <= line_count a)%nat
  /\ (1 <= word_count a)%nat
  /\ exists c r, first_line a = c :: r
                 /\ is_space c = false /\ is_space (last (c :: r) c) = false.
Proof.
  intros Hacc H. destruct (analyze_ok _ _ _ _ _ _ H) as [ratio ->].
  assert (Hb : blank text = false).
  { unfold Cli.accepts in Hacc. apply andb_true_iff in Hacc as [_ Hs].
    destruct (blank text) eqn:E; [ | reflexivity].
    apply strip_nil_iff in E. now rewrite E in Hs. }
  split; [exact Hb | ].
  cbn [features line_count word_count first_line].
  destruct (lines_of_text text Hb) as (l & ls & -> & Hl).
  split; [cbn; lia | ]. split.
  - destruct (split_ws text) eqn:E; [ | cbn; lia].
    apply split_ws_nil in E. congruence.
  - destruct (strip l) as [ | c r] eqn:E; [discriminate | ].
    exists c, r. split; [reflexivity | ]. exact (strip_trimmed l c r E).
Qed.

Lemma accepted_text_has_a_first_line_witness :
  Cli.accepts (lit "  Hi there  ") = true
  /\ analyze (lit "  Hi there  ") false fresh_process
     = (Ok (features (lit "  Hi there  ") false (int_truediv 12 280 * 100)),
        loaded_process, [ReadConfigFile])
  /\ (1 <= line_count (features (lit "  Hi there  ") false (int_truediv 12 280 * 100)))%nat.
Proof.
  split; [reflexivity | ]. split; [reflexivity | ].
  exact (proj1 (proj2
           (accepted_text_has_a_first_line (lit "  Hi there  ") false fresh_process
              loaded_process _ [ReadConfigFile] eq_refl eq_refl))).
Defined.

(** X4: the first line is never longer than the text, so every text
    shorter than 60 characters is reported to have a hook, whatever it
    ends with. *)
Theorem short_text_always_has_a_hook
    (text : str) (has_media : bool) (p p' : Config.process)
    (a : analysis) (evs : list event) :
  analyze text has_media p = (Ok a, p', evs) ->
  (List.length (first_line a) <= List.length text)%nat
  /\ ((List.length text < 60)%nat -> has_hook a = true).
Proof.
  intros H. destruct (analyze_ok _ _ _ _ _ _ H) as [ratio ->].
  cbn [features first_line has_hook].
  set (lines := filter (fun l => nonempty (strip l)) (split_on 10 (strip text))).
  assert (Hlen : (List.length (match lines with l :: _ => strip l | [] => [] end)
                  <= List.length text)%nat).
  { destruct lines as [ | l ls] eqn:E; [cbn; lia | ].
    assert (Hin : In l (split_on 10 (strip text))).
    { assert (Hl : In l lines) by (rewrite E; now left).
      apply filter_In in Hl. apply Hl. }
    pose proof (split_on_length 10 _ _ Hin).
    pose proof (strip_length l). pose proof (strip_length text). lia. }
  split; [exact Hlen | ].
  intros Hshort. apply orb_true_iff. right. apply Nat.ltb_lt. lia.
Qed.

Lemma short_text_always_has_a_hook_witness :
  analyze (lit "no punctuation at the end") false fresh_process
  = (Ok (features (lit "no punctuation at the end") false (int_truediv 25 280 * 100)),
     loaded_process, [ReadConfigFile])
  /\ has_hook (features (lit "no punctuation at the end") false (int_truediv 25 280 * 100))
     = true.
Proof.
  split; [reflexivity | ].
  apply (short_text_always_has_a_hook (lit "no punctuation at the end") false
           fresh_process loaded_process _ [ReadConfigFile] eq_refl).
  cbn. lia.
Defined.

(** X5: the detected language is "tr" or "en", and one character of
    [_TR_CHARS] anywhere in the text makes it "tr" whatever the words
    are. *)
Theorem turkish_character_decides_language
    (text : str) (has_media : bool) (p p' : Config.process)
    (a : analysis) (evs : list event) :
  analyze text has_media p = (Ok a, p', evs) ->
  (lang a = "tr" \/ lang a = "en")
  /\ (forall c, In c text -> In c _TR_CHARS -> lang a = "tr").
Proof.
  intros H. destruct (analyze_ok _ _ _ _ _ _ H) as [ratio ->].
  cbn [features lang]. split; [apply detect_language_values | ].
  intros c Hc Htr. unfold detect_language.
  assert (E : existsb (fun c => existsb (N.eqb c) _TR_CHARS) text = true).
  { apply existsb_exists. exists c. split; [exact Hc | ].
    apply existsb_exists. exists c. split; [exact Htr | apply N.eqb_refl]. }
  now rewrite E.
Qed.

Lemma turkish_character_decides_language_witness :
  analyze (lit "the " ++ [167%N] ++ lit " sign")%list false fresh_process
  = (Ok (features (lit "the " ++ [167%N] ++ lit " sign")%list false
           (int_truediv 10 280 * 100)),
     loaded_process, [ReadConfigFile])
  /\ lang (features (lit "the " ++ [167%N] ++ lit " sign")%list false
             (int_truediv 10 280 * 100)) = "tr".
Proof.
  split; [reflexivity | ].
  refine (proj2 (turkish_character_decides_language
                   (lit "the " ++ [167%N] ++ lit " sign")%list false
                   fresh_process loaded_process _ [ReadConfigFile] eq_refl)
            167%N _ _).
  - do 4 right. left. reflexivity.
  - right. left. reflexivity.
Defined.


(** ** Loading the configuration *)

Module LoadFacts.

Import Config.

Lemma lookup_setdefault {V} (k k' : string) (v : V) (d : Dict.t V) :
  Dict.lookup k (Dict.setdefault k' v d)
  = match Dict.lookup k d with
    | Some x => Some x
    | None => if String.eqb k k' then Some v else None
    end.
Proof.
  destruct (Dict.lookup k d) as [x | ] eqn:E.
  - now apply lookup_setdefault_present.
  - destruct (String.eqb k k') eqn:Ek.
    + apply String.eqb_eq in Ek. subst k'. now apply lookup_setdefault_absent.
    + rewrite lookup_setdefault_other; [exact E | ].
      intros ->. now rewrite String.eqb_refl in Ek.
Qed.

(** A merged section has the user's entries and, under the other keys, the
    defaults. *)
Lemma merge_section_lookup (dflt section : Dict.t value) (k : string) :
  Dict.lookup k (merge_section dflt section)
  = match Dict.lookup k section with
    | Some v => Some v
    | None => Dict.lookup k dflt
    end.
Proof.
  unfold merge_section. revert section.
  induction dflt as [ | [k0 v0] dflt IH]; intros section; cbn [fold_left fst snd].
  - cbn. now destruct (Dict.lookup k section).
  - rewrite IH, lookup_setdefault. cbn [Dict.lookup].
    destruct (Dict.lookup k section); [reflexivity | ].
    now destruct (String.eqb k k0).
Qed.

Lemma merge_defaults_app (l1 l2 : list (string * value)) (cfg : Dict.t value) :
  merge_defaults (l1 ++ l2) cfg
  = match merge_defaults l1 cfg with
    | (Ok _, cfg1) => merge_defaults l2 cfg1
    | (Raise e, cfg1) => (Raise e, cfg1)
    end.
Proof.
  revert cfg. induction l1 as [ | [key v] l1 IH]; intros cfg; cbn [app merge_defaults].
  - reflexivity.
  - destruct (Dict.lookup key cfg) as [present | ]; [ | apply IH].
    destruct v as [ | | | | | | dflt]; try apply IH.
    destruct present; try apply IH; destruct dflt; try apply IH; reflexivity.
Qed.

(** Merging default sections into a mapping whose sections are mappings
    succeeds, and gives [merged_entry] under every key. *)
Lemma merge_defaults_ok (defaults : list (string * value)) (cfg : Dict.t value) :
  Forall (fun kv => is_dict (snd kv) = true) defaults ->
  NoDup (map fst defaults) ->
  Forall (fun kv => section_ok (fst kv) cfg = true) defaults ->
  exists cfg',
    merge_defaults defaults cfg = (Ok tt, cfg')
    /\ forall k, Dict.lookup k cfg' = merged_entry defaults cfg k.
Proof.
  revert cfg. induction defaults as [ | [key v] rest IH]; intros cfg Hd Hnd Hok.
  - exists cfg. split; reflexivity.
  - inversion Hd as [ | ? ? Hv Hd']; subst. inversion Hnd as [ | ? ? Hnin Hnd']; subst.
    inversion Hok as [ | ? ? Hkey Hok']; subst.
    destruct v as [ | | | | | | dflt]; try discriminate Hv.
    cbn [fst snd] in *. unfold section_ok in Hkey.
    assert (Hrest : forall cfg1,
               (forall k, k <> key -> Dict.lookup k cfg1 = Dict.lookup k cfg) ->
               Forall (fun kv => section_ok (fst kv) cfg1 = true) rest).
    { intros cfg1 Hsame. rewrite Forall_forall in *. intros [k w] Hin.
      cbn. unfold section_ok. rewrite Hsame.
      - exact (Hok' (k, w) Hin).
      - intros ->. apply Hnin. apply in_map_iff. exists (key, w). auto. }
    assert (Hnone : Dict.lookup key rest = None).
    { destruct (Dict.lookup key rest) as [w | ] eqn:E; [ | reflexivity].
      exfalso. apply Hnin. apply lookup_In in E. apply in_map_iff.
      exists (key, w). auto. }
    cbn [merge_defaults].
    destruct (Dict.lookup key cfg) as [present | ] eqn:E.
    + destruct present as [ | | | | | | section]; try discriminate Hkey.
      set (cfg1 := Dict.set key (VDict (merge_section dflt section)) cfg).
      destruct (IH cfg1 Hd' Hnd') as (cfg' & Hm & Hl).
      { apply Hrest. intros k Hk. now apply lookup_set_neq. }
      exists cfg'. split; [exact Hm | ].
      intros k. rewrite Hl. unfold merged_entry. cbn [Dict.lookup].
      destruct (String.eqb k key) eqn:Ek.
      * apply String.eqb_eq in Ek. subst k. rewrite Hnone, E.
        unfold cfg1. apply lookup_set_eq.
      * assert (k <> key) by (intros ->; now rewrite String.eqb_refl in Ek).
        unfold cfg1. now rewrite lookup_set_neq.
    + set (cfg1 := Dict.set key (VDict dflt) cfg).
      destruct (IH cfg1 Hd' Hnd') as (cfg' & Hm & Hl).
      { apply Hrest. intros k Hk. now apply lookup_set_neq. }
      exists cfg'. split; [exact Hm | ].
      intros k. rewrite Hl. unfold merged_entry. cbn [Dict.lookup].
      destruct (String.eqb k key) eqn:Ek.
      * apply String.eqb_eq in Ek. subst k. rewrite Hnone, E.
        unfold cfg1. apply lookup_set_eq.
      * assert (k <> key) by (intros ->; now rewrite String.eqb_refl in Ek).
        unfold cfg1. now rewrite lookup_set_neq.
Qed.

(** The maximum read from a cache in which the optimization section is what
    merging makes of the user's mapping [d]. *)
Lemma max_chars_of_merged (cfg d : Dict.t value) :
  Dict.lookup "optimization" cfg = merged_entry _DEFAULT_CONFIG d "optimization" ->
  match value_get "optimization" (VDict []) (VDict cfg) with
  | Ok section => value_get "max_chars" (VInt 280) section
  | Raise e => Raise e
  end = Ok (requested_max_chars d).
Proof.
  intros H. cbn [value_get]. unfold Dict.get. rewrite H.
  unfold merged_entry, requested_max_chars. cbn [Dict.lookup _DEFAULT_CONFIG String.eqb
    Ascii.eqb Bool.eqb].
  destruct (Dict.lookup "optimization" d) as [[ | | | | | | section] | ];
    try reflexivity.
  cbn [value_get]. unfold Dict.get. rewrite merge_section_lookup.
  now destruct (Dict.lookup "max_chars" section).
Qed.

(** Loading a file that holds a mapping with at least one key. *)
Lemma load_config_parsed (p : process) (d : Dict.t value) :
  _config p = None -> config_yaml p = Parsed (VDict d) -> d <> [] ->
  load_config p
  = let store c := {| _config := Some c; config_yaml := config_yaml p |} in
    match merge_defaults _DEFAULT_CONFIG d with
    | (Ok _, d') => (Ok (VDict d'), store (VDict d'), [ReadConfigFile])
    | (Raise e, d') => (Raise e, store (VDict d'), [ReadConfigFile])
    end.
Proof.
  intros Hc Hy Hd. unfold load_config. rewrite Hc, Hy.
  destruct d as [ | kv d]; [contradiction | ]. reflexivity.
Qed.

Lemma configured_max_chars_cached (p : process) (cfg : Dict.t value) :
  _config p = Some (VDict cfg) ->
  configured_max_chars p
  = (match value_get "optimization" (VDict []) (VDict cfg) with
     | Ok section => value_get "max_chars" (VInt 280) section
     | Raise e => Raise e
     end, p, []).
Proof.
  intros Hc. unfold configured_max_chars, Config.get.
  rewrite (load_config_cached p _ Hc).
  now destruct (value_get "optimization" (VDict []) (VDict cfg)).
Qed.

End LoadFacts.
Import LoadFacts.

(** X6: when config.yaml is missing, unreadable, not valid YAML, or holds
    nothing (any value that counts as false), the first load caches
    exactly the built-in defaults after one read, and the configured
    maximum is 280. *)
Theorem unusable_config_file_gives_defaults (p : Config.process) :
  Config._config p = None ->
  (Config.config_yaml p = Config.FileNotFound
   \/ Config.config_yaml p = Config.PermissionDenied
   \/ Config.config_yaml p = Config.YamlError
   \/ exists v, Config.config_yaml p = Config.Parsed v /\ Config.truthy v = false) ->
  let p' := {| Config._config := Some (Config.VDict Config._DEFAULT_CONFIG);
               Config.config_yaml := Config.config_yaml p |} in
  Config.load_config p = (Ok (Config.VDict Config._DEFAULT_CONFIG), p', [ReadConfigFile])
  /\ configured_max_chars p = (Ok (Config.VInt 280), p', [ReadConfigFile]).
Proof.
  intros Hc Hy p'.
  assert (L : Config.load_config p
              = (Ok (Config.VDict Config._DEFAULT_CONFIG), p', [ReadConfigFile])).
  { unfold Config.load_config. rewrite Hc. subst p'.
    destruct Hy as [-> | [-> | [-> | (v & -> & Hv)]]]; try reflexivity.
    rewrite Hv. reflexivity. }
  split; [exact L | ].
  unfold configured_max_chars, Config.get. rewrite L. reflexivity.
Qed.

Lemma unusable_config_file_gives_defaults_witness :
  Config._config {| Config._config := None;
                    Config.config_yaml := Config.Parsed (Config.VStr "") |} = None
  /\ configured_max_chars {| Config._config := None;
                             Config.config_yaml := Config.Parsed (Config.VStr "") |}
     = (Ok (Config.VInt 280),
        {| Config._config := Some (Config.VDict Config._DEFAULT_CONFIG);
           Config.config_yaml := Config.Parsed (Config.VStr "") |},
        [ReadConfigFile]).
Proof.
  split; [reflexivity | ].
  refine (proj2 (unusable_config_file_gives_defaults
                   {| Config._config := None;
                      Config.config_yaml := Config.Parsed (Config.VStr "") |}
                   eq_refl _)).
  do 3 right. exists (Config.VStr ""). split; reflexivity.
Defined.

(** X7: when config.yaml holds a mapping whose claude, optimization and
    display sections are absent or are mappings, the load succeeds after
    one read; no entry of the file is lost or changed, every default entry
    is present afterwards, and the configured maximum is the file's
    optimization.max_chars when it has one and 280 otherwise. *)
Theorem config_file_overrides_defaults (p : Config.process) (d : Dict.t Config.value) :
  Config._config p = None ->
  Config.config_yaml p = Config.Parsed (Config.VDict d) ->
  d <> [] ->
  section_ok "claude" d = true ->
  section_ok "optimization" d = true ->
  section_ok "display" d = true ->
  exists cfg,
    let p' := {| Config._config := Some (Config.VDict cfg);
                 Config.config_yaml := Config.config_yaml p |} in
    Config.load_config p = (Ok (Config.VDict cfg), p', [ReadConfigFile])
    /\ (forall k v, Dict.lookup k d = Some v -> is_dict v = false ->
                    Dict.lookup k cfg = Some v)
    /\ (forall sec entries k v,
          Dict.lookup sec d = Some (Config.VDict entries) ->
          Dict.lookup k entries = Some v ->
          exists merged, Dict.lookup sec cfg = Some (Config.VDict merged)
                         /\ Dict.lookup k merged = Some v)
    /\ (forall sec dflt k v,
          Dict.lookup sec Config._DEFAULT_CONFIG = Some (Config.VDict dflt) ->
          Dict.lookup k dflt = Some v ->
          exists merged w, Dict.lookup sec cfg = Some (Config.VDict merged)
                           /\ Dict.lookup k merged = Some w)
    /\ configured_max_chars p = (Ok (requested_max_chars d), p', [ReadConfigFile]).
Proof.
  intros Hc Hy Hd H1 H2 H3.
  destruct (merge_defaults_ok Config._DEFAULT_CONFIG d) as (cfg & Hm & Hl).
  { repeat constructor. }
  { repeat constructor; cbn; intuition discriminate. }
  { repeat constructor; assumption. }
  exists cfg. intros p'.
  assert (L : Config.load_config p = (Ok (Config.VDict cfg), p', [ReadConfigFile])).
  { rewrite (load_config_parsed p d Hc Hy Hd). cbv zeta. now rewrite Hm. }
  split; [exact L | ]. split; [ | split; [ | split]].
  - intros k v Hk Hv. rewrite Hl. unfold merged_entry.
    destruct (Dict.lookup k Config._DEFAULT_CONFIG) as [[ | | | | | | dflt] | ] eqn:E;
      try exact Hk.
    exfalso. cbn in E.
    destruct (String.eqb k "claude") eqn:E1;
      [apply String.eqb_eq in E1; subst k; unfold section_ok in H1;
       rewrite Hk in H1; congruence | ].
    destruct (String.eqb k "optimization") eqn:E2;
      [apply String.eqb_eq in E2; subst k; unfold section_ok in H2;
       rewrite Hk in H2; congruence | ].
    destruct (String.eqb k "display") eqn:E3;
      [apply String.eqb_eq in E3; subst k; unfold section_ok in H3;
       rewrite Hk in H3; congruence | discriminate].
  - intros sec entries k v Hsec Hk. rewrite Hl. unfold merged_entry. rewrite Hsec.
    destruct (Dict.lookup sec Config._DEFAULT_CONFIG) as [[ | | | | | | dflt] | ];
      try (exists entries; split; [reflexivity | exact Hk]).
    eexists. split; [reflexivity | ]. now rewrite merge_section_lookup, Hk.
  - intros sec dflt k v Hsec Hk. rewrite Hl. unfold merged_entry. rewrite Hsec.
    destruct (Dict.lookup sec d) as [[ | | | | | | entries] | ];
      try (exists dflt, v; split; [reflexivity | exact Hk]).
    destruct (Dict.lookup k entries) as [w | ] eqn:E.
    + exists (Config.merge_section dflt entries), w. split; [reflexivity | ].
      now rewrite merge_section_lookup, E.
    + exists (Config.merge_section dflt entries), v. split; [reflexivity | ].
      now rewrite merge_section_lookup, E.
  - unfold configured_max_chars, Config.get. rewrite L.
    pose proof (max_chars_of_merged cfg d (Hl "optimization")) as Hmax.
    destruct (Config.value_get "optimization" (Config.VDict []) (Config.VDict cfg));
      now rewrite Hmax.
Qed.


Lemma config_file_overrides_defaults_witness :
  section_ok "optimization"
    [("optimization", Config.VDict [("max_chars", Config.VInt 140)])] = true
  /\ exists cfg,
       configured_max_chars
         {| Config._config := None;
            Config.config_yaml :=
              Config.Parsed (Config.VDict
                [("optimization", Config.VDict [("max_chars", Config.VInt 140)])]) |}
       = (Ok (Config.VInt 140),
          {| Config._config := Some (Config.VDict cfg);
             Config.config_yaml :=
               Config.Parsed (Config.VDict
                 [("optimization", Config.VDict [("max_chars", Config.VInt 140)])]) |},
          [ReadConfigFile]).
Proof.
  split; [reflexivity | ].
  destruct (config_file_overrides_defaults
              {| Config._config := None;
                 Config.config_yaml :=
                   Config.Parsed (Config.VDict
                     [("optimization", Config.VDict [("max_chars", Config.VInt 140)])]) |}
              [("optimization", Config.VDict [("max_chars", Config.VInt 140)])]
              eq_refl eq_refl ltac:(discriminate) eq_refl eq_refl eq_refl)
    as (cfg & _ & _ & _ & _ & H).
  exists cfg. exact H.
Defined.

(** X8: when the display section of config.yaml is not a mapping (and the
    claude and optimization sections are absent or are mappings), the
    first extraction of a process raises AttributeError, but the mapping
    merged so far stays cached: the next extraction reads no file and
    behaves as with a sound file, using the file's optimization.max_chars
    or 280. *)
Theorem bad_display_section_fails_once
    (text : str) (has_media : bool) (p : Config.process)
    (d : Dict.t Config.value) (v : Config.value) :
  Config._config p = None ->
  Config.config_yaml p = Config.Parsed (Config.VDict d) ->
  section_ok "claude" d = true ->
  section_ok "optimization" d = true ->
  Dict.lookup "display" d = Some v ->
  is_dict v = false ->
  exists p1,
    analyze text has_media p = (Raise AttributeError, p1, [ReadConfigFile])
    /\ analyze text has_media p1
       = (match utilization (List.length text) (requested_max_chars d) with
          | Ok ratio => Ok (features text has_media ratio)
          | Raise e => Raise e
          end, p1, []).
Proof.
  intros Hc Hy H1 H2 Hv Hnd.
  assert (Hd : d <> []) by (intros ->; discriminate Hv).
  destruct (merge_defaults_ok (firstn 2 Config._DEFAULT_CONFIG) d) as (cfg & Hm & Hl).
  { repeat constructor. }
  { repeat constructor; cbn; intuition discriminate. }
  { repeat constructor; assumption. }
  assert (Hfail : Config.merge_defaults Config._DEFAULT_CONFIG d = (Raise AttributeError, cfg)).
  { change Config._DEFAULT_CONFIG
      with (firstn 2 Config._DEFAULT_CONFIG ++ skipn 2 Config._DEFAULT_CONFIG)%list.
    rewrite merge_defaults_app, Hm. cbn [skipn Config._DEFAULT_CONFIG Config.merge_defaults].
    rewrite (Hl "display"). unfold merged_entry. cbn [firstn Dict.lookup Config._DEFAULT_CONFIG
      String.eqb Ascii.eqb Bool.eqb]. rewrite Hv.
    destruct v; try reflexivity. discriminate Hnd. }
  set (p1 := {| Config._config := Some (Config.VDict cfg);
                Config.config_yaml := Config.config_yaml p |}).
  exists p1. split.
  - unfold analyze, configured_max_chars, Config.get.
    rewrite (load_config_parsed p d Hc Hy Hd). cbv zeta. rewrite Hfail. reflexivity.
  - unfold analyze. rewrite (configured_max_chars_cached p1 cfg eq_refl).
    rewrite (max_chars_of_merged cfg d (Hl "optimization")).
    now destruct (utilization (List.length text) (requested_max_chars d)).
Qed.

Lemma bad_display_section_fails_once_witness :
  Dict.lookup "display" [("display", Config.VInt 5)] = Some (Config.VInt 5)
  /\ exists p1,
       analyze example_text false
         {| Config._config := None;
            Config.config_yaml := Config.Parsed (Config.VDict [("display", Config.VInt 5)]) |}
       = (Raise AttributeError, p1, [ReadConfigFile])
       /\ analyze example_text false p1
          = (Ok (features example_text false (int_truediv 41 280 * 100)), p1, []).
Proof.
  split; [reflexivity | ].
  exact (bad_display_section_fails_once example_text false
           {| Config._config := None;
              Config.config_yaml := Config.Parsed (Config.VDict [("display", Config.VInt 5)]) |}
           [("display", Config.VInt 5)] (Config.VInt 5)
           eq_refl eq_refl eq_refl eq_refl eq_refl eq_refl).
Defined.

(** X9: when the optimization section of config.yaml is present and is not
    a mapping (for instance left empty), the first extraction raises
    AttributeError after reading the file, and so does every later one in
    the process, without reading anything and without changing the
    process: the failed load is cached. *)
Theorem bad_optimization_section_fails_for_good
    (text : str) (has_media : bool) (p : Config.process)
    (d : Dict.t Config.value) (v : Config.value) :
  Config._config p = None ->
  Config.config_yaml p = Config.Parsed (Config.VDict d) ->
  Dict.lookup "optimization" d = Some v ->
  is_dict v = false ->
  exists p1,
    analyze text has_media p = (Raise AttributeError, p1, [ReadConfigFile])
    /\ analyze text has_media p1 = (Raise AttributeError, p1, []).
Proof.
  intros Hc Hy Hv Hnd.
  assert (Hd : d <> []) by (intros ->; discriminate Hv).
  assert (Hfail : exists cfg,
             Config.merge_defaults Config._DEFAULT_CONFIG d = (Raise AttributeError, cfg)
             /\ Dict.lookup "optimization" cfg = Some v).
  { assert (Hstep : forall cfg0, Dict.lookup "optimization" cfg0 = Some v ->
              Config.merge_defaults (skipn 1 Config._DEFAULT_CONFIG) cfg0
              = (Raise AttributeError, cfg0)).
    { intros cfg0 H0. cbn [skipn Config._DEFAULT_CONFIG Config.merge_defaults].
      rewrite H0. destruct v; try reflexivity. discriminate Hnd. }
    change Config._DEFAULT_CONFIG
      with (firstn 1 Config._DEFAULT_CONFIG ++ skipn 1 Config._DEFAULT_CONFIG)%list.
    rewrite merge_defaults_app.
    cbn [firstn Config._DEFAULT_CONFIG Config.merge_defaults].
    destruct (Dict.lookup "claude" d) as [[ | | | | | | section] | ] eqn:E;
      try (exists d; split; [reflexivity | exact Hv]).
    - eexists. split; [apply Hstep | ]; rewrite lookup_set_neq; auto; discriminate.
    - eexists. split; [apply Hstep | ]; rewrite lookup_set_neq; auto; discriminate. }
  destruct Hfail as (cfg & Hfail & Hopt).
  set (p1 := {| Config._config := Some (Config.VDict cfg);
                Config.config_yaml := Config.config_yaml p |}).
  assert (Hget : match Config.value_get "optimization" (Config.VDict []) (Config.VDict cfg) with
                 | Ok section => Config.value_get "max_chars" (Config.VInt 280) section
                 | Raise e => Raise e
                 end = Raise AttributeError).
  { cbn [Config.value_get]. unfold Dict.get. rewrite Hopt.
    destruct v; try reflexivity. discriminate Hnd. }
  exists p1. split.
  - unfold analyze, configured_max_chars, Config.get.
    rewrite (load_config_parsed p d Hc Hy Hd). cbv zeta. rewrite Hfail. reflexivity.
  - unfold analyze. rewrite (configured_max_chars_cached p1 cfg eq_refl), Hget.
    reflexivity.
Qed.

Lemma bad_optimization_section_fails_for_good_witness :
  Dict.lookup "optimization" [("optimization", Config.VNone)] = Some Config.VNone
  /\ exists p1,
       analyze example_text false
         {| Config._config := None;
            Config.config_yaml :=
              Config.Parsed (Config.VDict [("optimization", Config.VNone)]) |}
       = (Raise AttributeError, p1, [ReadConfigFile])
       /\ analyze example_text false p1 = (Raise AttributeError, p1, []).
Proof.
  split; [reflexivity | ].
  exact (bad_optimization_section_fails_for_good example_text false
           {| Config._config := None;
              Config.config_yaml :=
                Config.Parsed (Config.VDict [("optimization", Config.VNone)]) |}
           [("optimization", Config.VNone)] Config.VNone
           eq_refl eq_refl eq_refl eq_refl).
Defined.

(** ** The comparison and the estimator *)

Module ScorerMore.

Local Open Scope float_scope.

(** A loop that assigns under each key of a list without repeats, starting
    from a dictionary that has none of them, appends the keys in order. *)
Lemma set_absent {V} (k : string) (v : V) (d : Dict.t V) :
  Dict.lookup k d = None -> Dict.set k v d = (d ++ [(k, v)])%list.
Proof.
  induction d as [ | [k' v'] d IH]; cbn; [reflexivity | ].
  destruct (String.eqb k k'); [discriminate | ].
  intros H. now rewrite IH.
Qed.

Lemma lookup_app_none {V} (k : string) (d1 d2 : Dict.t V) :
  Dict.lookup k d1 = None -> Dict.lookup k (d1 ++ d2)%list = Dict.lookup k d2.
Proof.
  induction d1 as [ | [k' v'] d1 IH]; cbn; [reflexivity | ].
  destruct (String.eqb k k'); [discriminate | exact IH].
Qed.

Lemma lookup_not_key {V} (k : string) (d : Dict.t V) :
  ~ In k (Dict.keys d) -> Dict.lookup k d = None.
Proof.
  intros H. destruct (Dict.lookup k d) as [v | ] eqn:E; [ | reflexivity].
  exfalso. apply H. apply lookup_In in E. unfold Dict.keys.
  apply in_map_iff. exists (k, v). auto.
Qed.

Lemma fold_set_keys {V} (f : string -> V) (l : list string) (d : Dict.t V) :
  NoDup l -> (forall k, In k l -> ~ In k (Dict.keys d)) ->
  fold_left (fun r a => Dict.set a (f a) r) l d = (d ++ map (fun a => (a, f a)) l)%list.
Proof.
  revert d. induction l as [ | a l IH]; intros d Hnd Hd; cbn.
  - now rewrite app_nil_r.
  - inversion Hnd as [ | ? ? Hnin Hnd']; subst.
    rewrite (set_absent a (f a) d) by (apply lookup_not_key, Hd; now left).
    rewrite IH; [now rewrite <- app_assoc | exact Hnd' | ].
    intros k Hk. unfold Dict.keys. rewrite map_app, in_app_iff. cbn.
    intros [Hin | [<- | []]]; [ | contradiction].
    apply (Hd k); [now right | exact Hin].
Qed.

Lemma ACTIONS_NoDup : NoDup ACTIONS.
Proof.
  assert (E : nodup string_dec ACTIONS = ACTIONS) by (vm_compute; reflexivity).
  rewrite <- E. apply NoDup_nodup.
Qed.

Lemma compute_delta_entries (orig_scores opt_scores : Dict.t float) :
  compute_delta orig_scores opt_scores
  = map (fun a => (a, delta_of a (Dict.get a 0 orig_scores) (Dict.get a 0 opt_scores)))
        ACTIONS.
Proof.
  unfold compute_delta, Dict.empty.
  rewrite (fold_set_keys
             (fun a => delta_of a (Dict.get a 0 orig_scores) (Dict.get a 0 opt_scores))
             ACTIONS [] ACTIONS_NoDup); [reflexivity | ].
  intros k _ [].
Qed.

Lemma compute_delta_keys (orig_scores opt_scores : Dict.t float) :
  Dict.keys (compute_delta orig_scores opt_scores) = ACTIONS.
Proof.
  rewrite compute_delta_entries. unfold Dict.keys. rewrite map_map. cbn [fst].
  apply map_id.
Qed.

End ScorerMore.
Import ScorerMore.

Local Open Scope float_scope.

(** X10: whatever the two vectors hold, the per-signal report has exactly
    the 19 catalog ids, in catalog order; entries under other keys are
    ignored, and an id missing from a vector counts as 0.0: two pairs of
    vectors that agree on the catalog ids (read with the default 0.0) give
    the same report. *)
Theorem compute_delta_reads_the_catalog_only
    (orig_scores opt_scores : Dict.t float) :
  Dict.keys (compute_delta orig_scores opt_scores) = ACTIONS
  /\ List.length (compute_delta orig_scores opt_scores) = 19%nat
  /\ forall orig_scores' opt_scores' : Dict.t float,
       (forall id, In id ACTIONS ->
                   Dict.get id 0 orig_scores' = Dict.get id 0 orig_scores
                   /\ Dict.get id 0 opt_scores' = Dict.get id 0 opt_scores) ->
       compute_delta orig_scores' opt_scores' = compute_delta orig_scores opt_scores.
Proof.
  rewrite compute_delta_entries. split; [ | split].
  - unfold Dict.keys. rewrite map_map. cbn [fst]. apply map_id.
  - now rewrite length_map.
  - intros o' c' H. rewrite compute_delta_entries. apply map_ext_in.
    intros a Ha. destruct (H a Ha) as [-> ->]. reflexivity.
Qed.

(** X11: an entry flagged is_new has an original equal to 0, an optimized
    value above 0 and a delta_pct of 100.0; its direction is "improved"
    on a positive-polarity signal and "worse" on a negative-polarity one.
    An entry that is not flagged and whose original is 0 has delta_pct 0.0
    and the direction "worse". *)
Theorem new_signal_entries
    (orig_scores opt_scores : Dict.t float) (action : string) (d : delta) :
  Dict.lookup action (compute_delta orig_scores opt_scores) = Some d ->
  (is_new d = true ->
     (original d =? 0) = true /\ (0 <? optimized d) = true /\ delta_pct d = 100
     /\ direction d = if is_negative_action action then "worse" else "improved")
  /\ (is_new d = false -> (original d =? 0) = true ->
        delta_pct d = 0 /\ direction d = "worse").
Proof.
  intros H.
  assert (Hin : In action ACTIONS).
  { apply lookup_In in H. rewrite <- (compute_delta_keys orig_scores opt_scores).
    unfold Dict.keys. apply in_map_iff. exists (action, d). auto. }
  rewrite (compute_delta_lookup _ _ _ Hin) in H. injection H as <-.
  unfold delta_of, raw_delta_pct, gtb. cbn [is_new original optimized delta_pct direction].
  set (orig := Dict.get action 0 orig_scores). set (opt := Dict.get action 0 opt_scores).
  split.
  - intros Hnew. rewrite Hnew. apply andb_true_iff in Hnew as [Ho Hc].
    split; [exact Ho | ]. split; [exact Hc | ]. split; reflexivity.
  - intros Hnew Ho. rewrite Hnew, Ho. split; [reflexivity | ].
    now destruct (is_negative_action action).
Qed.

Lemma new_signal_entries_witness :
  exists d,
    Dict.lookup "report_score" (compute_delta [] [("report_score", 0.3)]) = Some d
    /\ is_new d = true /\ delta_pct d = 100 /\ direction d = "worse".
Proof.
  eexists. split; [reflexivity | ].
  destruct (new_signal_entries [] [("report_score", 0.3)] "report_score" _ eq_refl)
    as [Hnew _].
  destruct (Hnew eq_refl) as (_ & _ & Hp & Hd).
  split; [reflexivity | ]. split; [exact Hp | exact Hd].
Defined.

(** Case analysis on every test of an estimate, then evaluation. *)
Ltac estimate_cases :=
  repeat match goal with
         | |- context [if ?c then _ else _] => destruct c
         end;
  vm_compute; reflexivity.

(** X12: for every feature record with at most 21 power words (the size
    of the larger catalog, so for every record the extractor returns),
    each estimate lies between the base of its signal and the sum of that
    base and all its bonuses; the largest bound is 0.78, so [_clamp] never
    changes a value, and no negative-polarity estimate exceeds 0.43. *)
Theorem estimates_stay_within_their_bonuses (a : analysis) :
  (power_word_count a <= 21)%nat ->
  Forall (fun entry =>
            exists v, Dict.lookup (fst entry) (score_tweet a) = Some v
                      /\ within (fst (snd entry)) (snd (snd entry)) v = true)
         estimate_bounds
  /\ Forall (fun entry => within 0.02 0.78 (fst (snd entry)) = true
                          /\ within 0.02 0.78 (snd (snd entry)) = true)
            estimate_bounds
  /\ map fst estimate_bounds = ACTIONS.
Proof.
  intros Hpw. split; [ | split; [repeat constructor | reflexivity]].
  unfold estimate_bounds, score_tweet, Dict.empty.
  cbn [Dict.set Dict.lookup String.eqb Ascii.eqb Bool.eqb].
  repeat apply Forall_cons; try apply Forall_nil;
    cbn [Dict.lookup String.eqb Ascii.eqb Bool.eqb fst snd];
    (eexists; split; [reflexivity | ]).
  - (* favorite_score: the number of power words enters the value *)
    remember (power_word_count a) as n eqn:En. clear En.
    do 22 (destruct n as [ | n]; [estimate_cases | ]). lia.
  - (* reply_score: the question count enters through min(question_count, 3) *)
    remember (question_count a) as q eqn:Eq. clear Eq.
    do 3 (destruct q as [ | q]; [estimate_cases | ]).
    replace (Nat.min (S (S (S q))) 3) with 3%nat by lia. estimate_cases.
  - estimate_cases.
  - estimate_cases.
  - estimate_cases.
  - estimate_cases.
  - estimate_cases.
  - estimate_cases.
  - estimate_cases.
  - estimate_cases.
  - estimate_cases.
  - estimate_cases.
  - estimate_cases.
  - estimate_cases.
  - estimate_cases.
  - estimate_cases.
  - estimate_cases.
  - estimate_cases.
  - estimate_cases.
Qed.

Lemma estimates_stay_within_their_bonuses_witness :
  (power_word_count (features example_text false 14.6) <= 21)%nat
  /\ Forall (fun entry =>
               exists v,
                 Dict.lookup (fst entry) (score_tweet (features example_text false 14.6))
                 = Some v
                 /\ within (fst (snd entry)) (snd (snd entry)) v = true)
            estimate_bounds.
Proof.
  assert (H : (power_word_count (features example_text false 14.6) <= 21)%nat)
    by (vm_compute; lia).
  split; [exact H | ].
  exact (proj1 (estimates_stay_within_their_bonuses _ H)).
Defined.

(** ** Validation and filling of a variation *)

Module ValidationFacts.

Lemma flat_map_nil {A B} (f : A -> list B) (l : list A) :
  flat_map f l = [] <-> forall x, In x l -> f x = [].
Proof.
  induction l as [ | a l IH]; cbn.
  - split; [intros _ x [] | reflexivity].
  - split.
    + intros H. apply app_eq_nil in H as [Ha Hl]. intros x [<- | Hx]; [exact Ha | ].
      now apply IH.
    + intros H. rewrite (H a (or_introl eq_refl)). apply IH.
      intros x Hx. apply H. now right.
Qed.

Lemma filter_nil {A} (f : A -> bool) (l : list A) :
  filter f l = [] <-> forall x, In x l -> f x = false.
Proof.
  induction l as [ | a l IH]; cbn.
  - split; [intros _ x [] | reflexivity].
  - destruct (f a) eqn:E.
    + split; [discriminate | ]. intros H. specialize (H a (or_introl eq_refl)). congruence.
    + rewrite IH. split.
      * intros H x [<- | Hx]; auto.
      * intros H x Hx. apply H. now right.
Qed.

Lemma score_warnings_nil (action : string) (val : jvalue) :
  score_warnings (action, val) = []
  <-> is_number val = true /\ in_unit_range val = true.
Proof.
  cbn. destruct (is_number val), (in_unit_range val); cbn; intuition discriminate.
Qed.

Lemma mem_app_other {V} (k a : string) (x : V) (s : Dict.t V) :
  k <> a -> Dict.mem k (s ++ [(a, x)])%list = Dict.mem k s.
Proof.
  intros Hne. unfold Dict.mem.
  induction s as [ | [k' v'] s IH]; cbn.
  - destruct (String.eqb k a) eqn:E; [ | reflexivity].
    apply String.eqb_eq in E. contradiction.
  - destruct (String.eqb k k'); [reflexivity | exact IH].
Qed.

(** The loop of [setdefault]s appends, in the order of the list, the keys
    that were missing. *)
Lemma fold_setdefault_appends {V} (x : V) (l : list string) (s : Dict.t V) :
  NoDup l ->
  fold_left (fun d a => Dict.setdefault a x d) l s
  = (s ++ map (fun a => (a, x)) (filter (fun a => negb (Dict.mem a s)) l))%list.
Proof.
  revert s. induction l as [ | a l IH]; intros s Hnd; cbn [fold_left filter].
  - cbn. now rewrite app_nil_r.
  - inversion Hnd as [ | ? ? Hnin Hnd']; subst.
    unfold Dict.setdefault at 2. destruct (Dict.mem a s) eqn:E; cbn [negb].
    + now apply IH.
    + assert (Hl : Dict.lookup a s = None).
      { unfold Dict.mem in E. now destruct (Dict.lookup a s). }
      rewrite (set_absent a x s Hl), (IH _ Hnd'). cbn [map].
      rewrite <- app_assoc. cbn [app]. do 3 f_equal.
      apply filter_ext_in. intros k Hk. f_equal. apply mem_app_other.
      intros ->. contradiction.
Qed.

End ValidationFacts.
Import ValidationFacts.

(** X13: validation returns no warning exactly when the variation has a
    tweet text that is not empty and not longer than the maximum, a score
    under each of the 19 catalog ids, and only numbers between 0.0 and 1.0
    as scores, under the catalog ids and under any other key. *)
Theorem no_warning_iff_valid (var : variation) (max_chars : Z) :
  validate_variation var max_chars = []
  <-> (exists t, tweet var = Some t /\ t <> []
                 /\ (Z.of_nat (List.length t) <= max_chars)%Z)
      /\ (exists s, scores var = Some s
                    /\ (forall id, In id ACTIONS -> Dict.mem id s = true)
                    /\ (forall action val, In (action, val) (Dict.items s) ->
                          is_number val = true /\ in_unit_range val = true)).
Proof.
  unfold validate_variation, Dict.items. cbn [app].
  set (t := match tweet var with Some t => t | None => [] end).
  set (s := match scores var with Some s => s | None => Dict.empty end).
  set (missing := filter (fun a => negb (Dict.mem a s)) ACTIONS).
  split.
  - intros H. apply app_eq_nil in H as [Hw Hv].
    assert (Hmiss : missing = []).
    { destruct missing; [reflexivity | ]. now apply app_eq_nil in Hw as [_ Hw]. }
    rewrite Hmiss in Hw.
    assert (Hs : exists s0, scores var = Some s0).
    { destruct (scores var) as [s0 | ] eqn:E; [eauto | ]. discriminate Hmiss. }
    destruct Hs as [s0 Hs0].
    split.
    + destruct (nonempty t) eqn:Ht; [ | discriminate Hw]. cbn [negb] in Hw.
      destruct (max_chars <? Z.of_nat (List.length t))%Z eqn:Hlen; [discriminate Hw | ].
      destruct (tweet var) as [t0 | ] eqn:Et; [ | discriminate Ht].
      exists t0. split; [reflexivity | ]. split.
      * intros ->. discriminate Ht.
      * apply Z.ltb_ge in Hlen. exact Hlen.
    + exists s0. split; [exact Hs0 | ]. subst missing s. rewrite Hs0 in Hmiss, Hv. split.
      * intros id Hin.
        pose proof (proj1 (filter_nil _ _) Hmiss id Hin) as Hf.
        cbv beta in Hf. apply negb_false_iff in Hf. exact Hf.
      * intros action val Hin. apply (proj1 (score_warnings_nil action val)).
        exact (proj1 (flat_map_nil _ _) Hv _ Hin).
  - intros [(t0 & Et & Hne & Hlen) (s0 & Es & Hall & Hvals)].
    subst t s missing. rewrite Et, Es.
    assert (Ht : nonempty t0 = true) by (destruct t0; [contradiction | reflexivity]).
    rewrite Ht. cbn [negb].
    apply Z.ltb_ge in Hlen. rewrite Hlen.
    assert (Hmiss : filter (fun a => negb (Dict.mem a s0)) ACTIONS = []).
    { apply (proj2 (filter_nil _ ACTIONS)). intros id Hin. now rewrite (Hall id Hin). }
    rewrite Hmiss. cbn [app].
    apply (proj2 (flat_map_nil score_warnings s0)). intros [action val] Hin.
    apply (proj2 (score_warnings_nil action val)). exact (Hvals action val Hin).
Qed.

(** X14: filling the scores keeps every supplied entry in its place and
    appends, in catalog order and with the value 0.0, exactly the ids that
    the "Missing scores" warning names; afterwards no catalog id is
    missing, and filling again changes nothing. *)
Theorem fill_missing_scores_appends_the_missing (s : Dict.t jvalue) :
  let missing := filter (fun a => negb (Dict.mem a s)) ACTIONS in
  fill_missing_scores s = (s ++ map (fun a => (a, JFloat 0.0)) missing)%list
  /\ (forall id, In id ACTIONS -> Dict.mem id (fill_missing_scores s) = true)
  /\ fill_missing_scores (fill_missing_scores s) = fill_missing_scores s.
Proof.
  intros missing.
  assert (Happ : forall d, fill_missing_scores d
                           = (d ++ map (fun a => (a, JFloat 0.0))
                                       (filter (fun a => negb (Dict.mem a d)) ACTIONS))%list).
  { intros d. unfold fill_missing_scores.
    apply (fold_setdefault_appends (JFloat 0.0) ACTIONS d ACTIONS_NoDup). }
  assert (Hall : forall id, In id ACTIONS -> Dict.mem id (fill_missing_scores s) = true).
  { intros id Hin. unfold Dict.mem.
    destruct (Dict.lookup id s) as [v | ] eqn:E.
    - now rewrite (fill_keeps s id v E).
    - now rewrite (fill_defaults s id Hin E). }
  split; [apply Happ | ]. split; [exact Hall | ].
  rewrite (Happ (fill_missing_scores s)).
  replace (filter (fun a => negb (Dict.mem a (fill_missing_scores s))) ACTIONS)
    with (@nil string).
  - cbn. apply app_nil_r.
  - symmetry. apply (proj2 (filter_nil _ ACTIONS)). intros id Hin.
    now rewrite (Hall id Hin).
Qed.

(** X15: a score under a catalog id that is not a number only produces a
    warning at validation, and the variation is filled as usual, but the
    comparison of that variation then raises (TypeError, or OverflowError
    when another score is too large an integer) and no report is made. *)
Theorem non_numeric_score_breaks_the_comparison
    (var : variation) (s : Dict.t jvalue) (max_chars : Z)
    (id : string) (val : jvalue) (a : analysis) (has_media : bool) :
  scores var = Some s ->
  In id ACTIONS ->
  Dict.lookup id s = Some val ->
  is_number val = false ->
  exists evs var',
    check_variation var max_chars = (validate_variation var max_chars, evs, var')
    /\ In (NonNumericScore id val) (validate_variation var max_chars)
    /\ exists e, compare_variation a var' has_media = Raise e
                 /\ (e = TypeError \/ e = OverflowError).
Proof.
  intros Hs Hin Hval Hn.
  eexists. exists {| tweet := tweet var; scores := Some (fill_missing_scores s) |}.
  split; [unfold check_variation; rewrite Hs; reflexivity | ]. split.
  - apply (validate_variation_value var s max_chars id val);
      [exact Hs | exact (lookup_In _ _ _ Hval) | ].
    cbn. rewrite Hn. now left.
  - apply (compare_variation_raises a (tweet var) (fill_missing_scores s) has_media
             id TypeError Hin).
    unfold Dict.get. rewrite (fill_keeps s id val Hval).
    exact (as_float_not_number val Hn).
Qed.

Lemma non_numeric_score_breaks_the_comparison_witness :
  exists evs var',
    check_variation worded_variation 280
    = (validate_variation worded_variation 280, evs, var')
    /\ In (NonNumericScore "reply_score" (JStr (lit "high")))
          (validate_variation worded_variation 280)
    /\ exists e, compare_variation (blank_analysis 0 false 0) var' false = Raise e
                 /\ (e = TypeError \/ e = OverflowError).
Proof.
  exact (non_numeric_score_breaks_the_comparison worded_variation worded_scores 280
           "reply_score" (JStr (lit "high")) (blank_analysis 0 false 0) false
           eq_refl (or_intror (or_introl eq_refl)) eq_refl eq_refl).
Defined.

Module ResponseFacts.

Lemma lstrip_blank_app (w s : str) : blank w = true -> lstrip (w ++ s) = lstrip s.
Proof.
  induction w as [ | a w IH]; [reflexivity | ].
  unfold blank. cbn [forallb app lstrip]. intros H.
  apply andb_true_iff in H as [Ha Hw]. rewrite Ha. exact (IH Hw).
Qed.

(** Whitespace around a text that starts and ends with a fence is all that
    [strip] removes. *)
Lemma strip_between_fences (w1 w2 mid : str) :
  blank w1 = true -> blank w2 = true ->
  strip (w1 ++ fence ++ mid ++ fence ++ w2) = (fence ++ mid ++ fence)%list.
Proof.
  intros H1 H2. unfold strip, rstrip. rewrite (lstrip_blank_app w1 _ H1).
  replace (lstrip (fence ++ mid ++ fence ++ w2)) with (fence ++ mid ++ fence ++ w2)%list
    by reflexivity.
  rewrite !rev_app_distr, <- !app_assoc.
  rewrite (lstrip_blank_app (rev w2) _ (eq_trans (blank_rev w2) H2)).
  replace (lstrip (rev fence ++ rev mid ++ rev fence))
    with (rev fence ++ rev mid ++ rev fence)%list by reflexivity.
  rewrite !rev_app_distr, !rev_involutive, <- !app_assoc. reflexivity.
Qed.

(** A fence line at the end is the one the loop stops at. *)
Lemma last_fence_end (i : nat) (xs : list str) (f : str) :
  is_fence_line f = true ->
  last_fence i (xs ++ [f]) = Some (i + List.length xs)%nat.
Proof.
  intros Hf. revert i.
  induction xs as [ | x xs IH]; intros i; cbn [app last_fence List.length].
  - rewrite Hf. f_equal. lia.
  - rewrite IH. f_equal. lia.
Qed.

Lemma no_newline (s : str) :
  ~ In 10%N s -> forallb (fun c => negb (N.eqb c 10)) s = true.
Proof.
  intros H. apply forallb_forall. intros c Hc. apply negb_true_iff, N.eqb_neq.
  intros ->. exact (H Hc).
Qed.

End ResponseFacts.
Import ResponseFacts.

(** X16: a response wrapped in a code fence is unwrapped exactly: with any
    whitespace around it, any tag without a line break after the opening
    fence, and the closing fence on a line of its own, what reaches the
    JSON decoder is the body between the two fence lines, unchanged. *)
Theorem fenced_response_is_unwrapped {A : Type} (json_loads : str -> option A)
    (w1 w2 tag body : str) :
  blank w1 = true -> blank w2 = true -> ~ In 10%N tag ->
  parse_response json_loads
    (w1 ++ fence ++ tag ++ 10%N :: body ++ 10%N :: fence ++ w2)
  = json_loads body.
Proof.
  intros H1 H2 Htag. unfold parse_response, strip_code_fence. f_equal.
  replace (w1 ++ fence ++ tag ++ 10%N :: body ++ 10%N :: fence ++ w2)%list
    with (w1 ++ fence ++ (tag ++ 10%N :: body ++ [10%N]) ++ fence ++ w2)%list
    by (rewrite <- !app_assoc; cbn [app]; rewrite <- !app_assoc; reflexivity).
  rewrite (strip_between_fences w1 w2 _ H1 H2).
  replace (startswith fence (fence ++ (tag ++ 10%N :: body ++ [10%N]) ++ fence))
    with true by reflexivity.
  cbv zeta.
  replace (fence ++ (tag ++ 10%N :: body ++ [10%N]) ++ fence)%list
    with ((fence ++ tag) ++ 10%N :: body ++ 10%N :: fence)%list
    by (rewrite <- !app_assoc; cbn [app]; rewrite <- !app_assoc; reflexivity).
  rewrite !split_on_app.
  rewrite (split_on_none 10 (fence ++ tag)).
  2:{ rewrite forallb_app. rewrite (no_newline tag Htag). reflexivity. }
  replace (split_on 10 fence) with [fence] by reflexivity.
  cbn [app tl skipn].
  rewrite (last_fence_end 1 (split_on 10 body) fence eq_refl).
  cbn [List.length Nat.add Nat.sub].
  replace (List.length (split_on 10 body) - 0)%nat
    with (List.length (split_on 10 body) + 0)%nat by lia.
  rewrite firstn_app_2. cbn [firstn]. rewrite app_nil_r. apply join_split.
Qed.

Lemma fenced_response_is_unwrapped_witness :
  parse_response (fun s => Some s)
    ([32%N] ++ fence ++ lit "json" ++ 10%N :: lit "{}" ++ 10%N :: fence ++ [10%N])
  = Some (lit "{}").
Proof.
  apply (fenced_response_is_unwrapped (fun s => Some s) [32%N] [10%N] (lit "json") (lit "{}"));
    [reflexivity | reflexivity | ].
  cbv. intros [H | [H | [H | [H | []]]]]; discriminate H.
Defined.

(** X17: a fenced response written on a single line is lost: when the
    stripped text starts with a fence and holds no line break, the JSON
    decoder is given the empty string, whatever stands between the
    fences. *)
Theorem one_line_fenced_response_is_emptied {A : Type} (json_loads : str -> option A)
    (text : str) :
  startswith fence (strip text) = true -> ~ In 10%N (strip text) ->
  parse_response json_loads text = json_loads [].
Proof.
  intros Hs Hnl. unfold parse_response, strip_code_fence. rewrite Hs. cbv zeta.
  rewrite (split_on_none 10 (strip text) (no_newline _ Hnl)). reflexivity.
Qed.

Lemma one_line_fenced_response_is_emptied_witness :
  parse_response (fun s => Some s) (fence ++ lit "{}" ++ fence) = Some [].
Proof.
  apply (one_line_fenced_response_is_emptied (fun s => Some s) (fence ++ lit "{}" ++ fence));
    [reflexivity | ].
  cbv. intros H. repeat (destruct H as [H | H]; [discriminate H | ]). exact H.
Defined.
